(** * dumbrss: feed aggregation into one static page

    A shallow embedding of [dumbrss.py].  Python [str] values are modelled
    as [string], read as the UTF-8 bytes of the text; [None] is the [None]
    of an [option].  Exceptions are a [result]; the parts of the run that
    print or touch files thread a [State]. *)

From Stdlib Require Import ZArith Lia Ascii String.
From stdpp Require Import gmap strings list.

Local Open Scope Z_scope.

(** ** Python string operations *)

Module Py.

Definition LF : ascii := "010"%char.
Definition CR : ascii := "013"%char.

(** The one-byte line boundaries of [str.splitlines]:
    LF, CR, VT, FF, FS, GS and RS. *)
Definition is_linebreak (c : ascii) : bool :=
  existsb (Ascii.eqb c)
    [LF; CR; "011"%char; "012"%char; "028"%char; "029"%char; "030"%char].

(** CR LF, and U+0085 (bytes C2 85). *)
Definition boundary2 (c c2 : ascii) : bool :=
  (Ascii.eqb c CR && Ascii.eqb c2 LF)
  || (Ascii.eqb c "194"%char && Ascii.eqb c2 "133"%char).

(** U+2028 and U+2029 (bytes E2 80 A8 and E2 80 A9). *)
Definition boundary3 (c c2 c3 : ascii) : bool :=
  Ascii.eqb c "226"%char && Ascii.eqb c2 "128"%char
  && (Ascii.eqb c3 "168"%char || Ascii.eqb c3 "169"%char).

(** [eol s] is what follows the line boundary [s] starts with, if any. *)
Definition eol (s : string) : option string :=
  match s with
  | EmptyString => None
  | String c s1 =>
      let single := if is_linebreak c then Some s1 else None in
      match s1 with
      | String c2 s2 =>
          if boundary2 c c2 then Some s2
          else match s2 with
               | String c3 s3 => if boundary3 c c2 c3 then Some s3 else single
               | EmptyString => single
               end
      | EmptyString => single
      end
  end.

(** Put [c] in front of the first line of [ls]. *)
Definition push (c : ascii) (ls : list string) : list string :=
  match ls with
  | [] => [String c EmptyString]
  | l :: ls' => String c l :: ls'
  end.

(** [s.splitlines()]: the lines of [s] without their boundaries; a boundary
    at the very end opens no further line. *)
Fixpoint splitlines (s : string) : list string :=
  match s with
  | EmptyString => []
  | String c s1 =>
      let single :=
        if is_linebreak c then EmptyString :: splitlines s1
        else push c (splitlines s1) in
      match s1 with
      | String c2 s2 =>
          if boundary2 c c2 then EmptyString :: splitlines s2
          else match s2 with
               | String c3 s3 =>
                   if boundary3 c c2 c3 then EmptyString :: splitlines s3
                   else single
               | EmptyString => single
               end
      | EmptyString => single
      end
  end.

(** [s.split(sep)] for a one-character separator: empty pieces are kept. *)
Fixpoint split (sep : ascii) (s : string) : list string :=
  match s with
  | EmptyString => [EmptyString]
  | String c s' =>
      if Ascii.eqb c sep then EmptyString :: split sep s'
      else push c (split sep s')
  end.

(** [l[i:j]] for [0 <= i <= j]. *)
Definition slice {A} (i j : nat) (l : list A) : list A :=
  take (j - i)%nat (drop i l).

(** [sep.join(l)]. *)
Definition join (sep : string) (l : list string) : string :=
  String.concat sep l.

Definition newline : string := String LF EmptyString.

(** The characters of a text: a UTF-8 continuation byte belongs to the
    character before it. *)
Definition is_continuation (s : string) : bool :=
  match s with
  | String c _ =>
      let n := nat_of_ascii c in (128 <=? n)%nat && (n <? 192)%nat
  | EmptyString => false
  end.

Fixpoint chars (s : string) : list string :=
  match s with
  | EmptyString => []
  | String c s' =>
      if is_continuation s' then push c (chars s')
      else String c EmptyString :: chars s'
  end.

(** [needle in s]. *)
Fixpoint contains (needle s : string) : bool :=
  String.prefix needle s
  || match s with
     | EmptyString => false
     | String _ s' => contains needle s'
     end.

(** Truth value of a [str]. *)
Definition nonempty (s : string) : bool :=
  match s with EmptyString => false | String _ _ => true end.

(** [str(v)] of a [str | None], as [str.format] and [print] render it. *)
Definition str (t : option string) : string :=
  match t with Some s => s | None => "None" end.

Definition is_Some_b {A} (o : option A) : bool :=
  match o with Some _ => true | None => false end.

(** A line free of line boundaries. *)
Fixpoint nobreak (l : string) : bool :=
  match l with
  | EmptyString => true
  | String _ l' => negb (is_Some_b (eol l)) && nobreak l'
  end.

End Py.


(** ** Exceptions and results *)

Inductive exn :=
  | RuntimeError (msg : string)
  | ValueError
  | TypeError
  | AttributeError
  | IndexError
  | AssertionError
  | ParseError          (* what [defusedxml] raises on a document it refuses *)
  | RequestException    (* what [requests.get] raises when no response arrives *)
  | TOMLDecodeError
  | OSError.

Inductive result (A : Type) :=
  | Ok (a : A)
  | Raise (e : exn).
Arguments Ok {A} a.
Arguments Raise {A} e.

Global Instance result_ret : MRet result := fun A a => Ok a.
Global Instance result_bind : MBind result := fun A B f r =>
  match r with Ok a => f a | Raise e => Raise e end.

(** A [for] loop that updates one object and stops at the first exception. *)
Fixpoint foldM {A B} (f : A -> B -> result A) (a : A) (l : list B) : result A :=
  match l with
  | [] => Ok a
  | x :: l' => match f a x with Ok a' => foldM f a' l' | Raise e => Raise e end
  end.

(** ** Dates and the locale *)

Record datetime := mkdatetime {
  year : Z; month : Z; day : Z; hour : Z; minute : Z; second : Z
}.

(** What the process locale decides: [datetime.strptime(s, "%d %b %Y")]
    ([None] when it raises [ValueError]) and [datetime.strftime(d, "%x")]. *)
Record Locale := {
  strptime_dbY : string -> option datetime;
  strftime_x : datetime -> string
}.

(** The C locale, which a Python process keeps for [LC_TIME] unless it calls
    [setlocale]; the program never does.  Text is read as ASCII here:
    digits [0-9] and the ASCII blanks. *)
Module CLocale.

Definition digit (c : ascii) : option Z :=
  let n := Z.of_nat (nat_of_ascii c) in
  if (48 <=? n) && (n <=? 57) then Some (n - 48) else None.

(** [\s] on ASCII: TAB, LF, VT, FF, CR, FS, GS, RS, US and space. *)
Definition is_space (c : ascii) : bool :=
  let n := Z.of_nat (nat_of_ascii c) in
  ((9 <=? n) && (n <=? 13)) || ((28 <=? n) && (n <=? 32)).

Fixpoint skip_spaces (s : string) : string :=
  match s with
  | String c s' => if is_space c then skip_spaces s' else s
  | EmptyString => s
  end.

(** [\s+]: at least one blank, then all that follow. *)
Definition spaces1 (s : string) : option string :=
  match s with
  | String c s' => if is_space c then Some (skip_spaces s') else None
  | EmptyString => None
  end.

(** The ways [%d], that is [3[0-1]|[1-2]\d|0[1-9]|[1-9]| [1-9]], matches a
    prefix of [s], in the order the regular expression tries them. *)
Definition day_matches (s : string) : list (Z * string) :=
  match s with
  | EmptyString => []
  | String c1 s1 =>
      let two :=
        match s1 with
        | String c2 s2 =>
            match digit c1, digit c2 with
            | Some 3, Some d2 => if d2 <=? 1 then [(30 + d2, s2)] else []
            | Some d1, Some d2 =>
                if (1 <=? d1) && (d1 <=? 2) then [(10 * d1 + d2, s2)]
                else if (d1 =? 0) && (1 <=? d2) then [(d2, s2)]
                else []
            | None, Some d2 =>
                if Ascii.eqb c1 " "%char && (1 <=? d2) then [(d2, s2)] else []
            | _, None => []
            end
        | EmptyString => []
        end in
      let one :=
        match digit c1 with
        | Some d1 => if 1 <=? d1 then [(d1, s1)] else []
        | None => []
        end in
      match digit c1 with
      | Some 0 => two
      | Some _ => two ++ one
      | None => two
      end
  end.

Definition lower (c : ascii) : ascii :=
  let n := nat_of_ascii c in
  if (65 <=? n)%nat && (n <=? 90)%nat then ascii_of_nat (n + 32) else c.

Definition months : list string :=
  ["jan"; "feb"; "mar"; "apr"; "may"; "jun";
   "jul"; "aug"; "sep"; "oct"; "nov"; "dec"].

Fixpoint index_of (x : string) (l : list string) (i : Z) : option Z :=
  match l with
  | [] => None
  | y :: l' => if String.eqb x y then Some i else index_of x l' (i + 1)
  end.

(** [%b]: a three-letter month name, in any case. *)
Definition month_match (s : string) : option (Z * string) :=
  match s with
  | String a (String b (String c rest)) =>
      match index_of (String (lower a) (String (lower b) (String (lower c) EmptyString)))
              months 1 with
      | Some m => Some (m, rest)
      | None => None
      end
  | _ => None
  end.

(** [%Y]: exactly four digits, and nothing after them. *)
Definition year_match (s : string) : option Z :=
  match s with
  | String a (String b (String c (String d EmptyString))) =>
      match digit a, digit b, digit c, digit d with
      | Some a, Some b, Some c, Some d => Some (1000 * a + 100 * b + 10 * c + d)
      | _, _, _, _ => None
      end
  | _ => None
  end.

Definition is_leap (y : Z) : bool :=
  (y mod 4 =? 0) && (negb (y mod 100 =? 0) || (y mod 400 =? 0)).

Definition days_in_month (y m : Z) : Z :=
  if m =? 2 then (if is_leap y then 29 else 28)
  else if (m =? 4) || (m =? 6) || (m =? 9) || (m =? 11) then 30
  else 31.

(** What follows the day: blanks, month, blanks, year, end of text; then
    the date has to exist ([datetime] has no year 0). *)
Definition after_day (d : Z) (s : string) : option datetime :=
  s1 ← spaces1 s;
  '(m, s2) ← month_match s1;
  s3 ← spaces1 s2;
  y ← year_match s3;
  if (1 <=? y) && (d <=? days_in_month y m)
  then Some (mkdatetime y m d 0 0 0) else None.

Fixpoint first_match (alts : list (Z * string)) : option datetime :=
  match alts with
  | [] => None
  | (d, rest) :: alts' =>
      match after_day d rest with
      | Some r => Some r
      | None => first_match alts'
      end
  end.

Definition strptime (s : string) : option datetime :=
  first_match (day_matches s).

Definition two_digits (n : Z) : string :=
  String (ascii_of_nat (Z.to_nat (48 + n / 10 mod 10)))
    (String (ascii_of_nat (Z.to_nat (48 + n mod 10))) EmptyString).

(** [%x] is [%m/%d/%y]. *)
Definition strftime (d : datetime) : string :=
  two_digits (month d) +:+ "/" +:+ two_digits (day d) +:+ "/"
  +:+ two_digits (year d mod 100).

Definition locale : Locale :=
  {| strptime_dbY := strptime; strftime_x := strftime |}.

End CLocale.

(** ** The outside world *)

(** An [xml.etree.ElementTree.Element]: [text] is [None] when the element
    has no text; iterating an element yields its children in order. *)
#[warnings="-register-all"]
Inductive Element :=
  | mkElement (tag : string) (text : option string) (children : list Element).

Definition tag (el : Element) : string :=
  match el with mkElement t _ _ => t end.
Definition text (el : Element) : option string :=
  match el with mkElement _ t _ => t end.
Definition children (el : Element) : list Element :=
  match el with mkElement _ _ c => c end.

(** A [requests.Response]. *)
Record Response := mkResponse {
  status_code : Z;
  body : string          (* [resp.text] *)
}.

(** [Response.ok]: [raise_for_status] raises for 400 to 599 only. *)
Definition ok (resp : Response) : bool :=
  negb ((400 <=? status_code resp) && (status_code resp <? 600)).

(** The loaded configuration: category names with their URLs, in the order
    of the file. *)
Definition Config := list (string * list string).

(** Everything the program consults outside its own file. *)
Record World := {
  http_get : string -> option Response;      (* [requests.get]; [None]: it raises *)
  xml_fromstring : string -> option Element; (* [defusedxml]; [None]: it raises *)
  toml_load : string -> option Config;       (* [tomllib.load]; [None]: it raises *)
  locale : Locale;
  (** Names every instance inherits from [object] and from the class
      bookkeeping ([__class__], [__dict__], [__doc__], [__module__], ...). *)
  object_attr : string -> bool;
  CODE_DIR : list string                     (* [Path(__file__).parent] *)
}.

(** What [@dataclass] sets on a class. *)
Definition dataclass_attrs : list string :=
  ["__dataclass_fields__"; "__dataclass_params__"; "__match_args__";
   "__init__"; "__repr__"; "__eq__"; "__hash__"].

Definition mem (x : string) (l : list string) : bool :=
  existsb (String.eqb x) l.

(** Names [setattr] refuses to bind to a [str] or to [None]. *)
Definition guarded (name : string) : option exn :=
  if mem name ["__class__"; "__dict__"] then Some TypeError
  else if String.eqb name "__weakref__" then Some AttributeError
  else None.

(** ** Templates *)

Definition dq : string := String (ascii_of_nat 34) EmptyString.
Definition q (s : string) : string := dq +:+ s +:+ dq.

Definition HTML_FMT (x : string) : string :=
"
<!DOCTYPE html>
<html lang=" +:+ q "en" +:+ ">
  <head>
    <meta charset=" +:+ q "UTF-8" +:+ ">
    <meta name=" +:+ q "viewport" +:+ " content=" +:+ q "width=device-width, initial-scale=1.0" +:+ ">
    <title>RSS</title>
    <link rel=" +:+ q "stylesheet" +:+ " href=" +:+ q "./style.css" +:+ ">
    <link rel=" +:+ q "icon" +:+ " href=" +:+ q "./favicon.ico" +:+ " type=" +:+ q "image/x-icon" +:+ ">
  </head>
  <body>
    <main>
        " +:+ x +:+ "
    </main>
  </body>
</html>
".

Definition ARTICLE_FMT (date link title description : string) : string :=
"
<li class=" +:+ q "article" +:+ ">
    " +:+ date +:+ " - <a href=" +:+ q link +:+ " target=" +:+ q "new" +:+ ">" +:+ title +:+ "</a>
    <br/>
    <div class=" +:+ q "article-description" +:+ ">" +:+ description +:+ "</div>
</li>
".

Definition FEED_FMT (link title articles : string) : string :=
"
<div class=" +:+ q "feed" +:+ ">
    <a href=" +:+ q link +:+ " target=" +:+ q "new" +:+ "><h2>" +:+ title +:+ "</h2></a>
    <ul class=" +:+ q "article-list" +:+ ">
        " +:+ articles +:+ "
    </ul>
</div>
".

Definition CATEGORY_FMT (title feeds : string) : string :=
"
<div class=" +:+ q "category" +:+ ">
    <h1 class=" +:+ q "category-title" +:+ ">" +:+ title +:+ "</h1>
    " +:+ feeds +:+ "
</div>
".

(** ** Article *)

Module Article.

(** The [date] attribute: [None], a [datetime], or the text a [date] element
    put there. *)
Inductive datefield :=
  | NoDate
  | Date (d : datetime)
  | DateText (s : string).

(** An instance: the four fields, and the instance attributes that shadow
    names of the class. *)
Record t := mk {
  title : option string;
  link : option string;
  description : option string;
  date : datefield;
  shadow : list (string * option string)
}.

(** [cls()]. *)
Definition new : t :=
  {| title := Some EmptyString; link := Some EmptyString;
     description := Some EmptyString; date := NoDate; shadow := [] |}.

Definition methods : list string :=
  ["parse_dt"; "parse_description"; "parse"; "format"].

Definition hasattr (w : World) (name : string) : bool :=
  mem name ["title"; "link"; "description"; "date"]
  || mem name methods || mem name dataclass_attrs || object_attr w name.

Definition setattr (a : t) (name : string) (v : option string) : result t :=
  if String.eqb name "title" then
    Ok {| title := v; link := link a; description := description a;
          date := date a; shadow := shadow a |}
  else if String.eqb name "link" then
    Ok {| title := title a; link := v; description := description a;
          date := date a; shadow := shadow a |}
  else if String.eqb name "description" then
    Ok {| title := title a; link := link a; description := v;
          date := date a; shadow := shadow a |}
  else if String.eqb name "date" then
    Ok {| title := title a; link := link a; description := description a;
          date := match v with Some s => DateText s | None => NoDate end;
          shadow := shadow a |}
  else
    match guarded name with
    | Some e => Raise e
    | None =>
        Ok {| title := title a; link := link a; description := description a;
              date := date a; shadow := (name, v) :: shadow a |}
    end.

Definition set_date (a : t) (d : datefield) : t :=
  {| title := title a; link := link a; description := description a;
     date := d; shadow := shadow a |}.

Definition set_description (a : t) (v : option string) : t :=
  {| title := title a; link := link a; description := v;
     date := date a; shadow := shadow a |}.

Definition shadowed (a : t) (name : string) : bool :=
  existsb (fun p => String.eqb name (fst p)) (shadow a).

Definition date_tokens (s : string) : string :=
  Py.join " " (Py.slice 1 4 (Py.split " " s)).

Definition parse_dt (lc : Locale) (s : string) : result datetime :=
  match strptime_dbY lc (date_tokens s) with
  | Some d => Ok d
  | None => Raise ValueError
  end.

Definition bad : string := "appeared first on".

Definition keep (ln : string) : bool :=
  Py.nonempty ln && negb (Py.contains bad ln).

Definition parse_description (s : string) : string :=
  Py.join Py.newline (List.filter keep (Py.splitlines s)).

(** One turn of the loop over the children of an item. *)
Definition parse_child (w : World) (article : t) (el : Element) : result t :=
  if String.eqb (tag el) "pubDate" then
    match text el with
    | Some s =>
        if Py.nonempty s then
          d ← parse_dt (locale w) s; Ok (set_date article (Date d))
        else Ok (set_date article NoDate)
    | None => Ok (set_date article NoDate)
    end
  else if String.eqb (tag el) "description" then
    match text el with
    | Some s =>
        Ok (set_description article
              (if Py.nonempty s then Some (parse_description s) else None))
    | None => Ok (set_description article None)
    end
  else if hasattr w (tag el) then setattr article (tag el) (text el)
  else Ok article.

Definition parse (w : World) (item : Element) : result t :=
  foldM (parse_child w) new (children item).

(** [asdict(self)] reads [__dataclass_fields__] through the instance. *)
Definition format (lc : Locale) (self : t) : result string :=
  if shadowed self "__dataclass_fields__" then Raise AttributeError
  else
    match date self with
    | Date d =>
        Ok (ARTICLE_FMT (strftime_x lc d) (Py.str (link self))
              (Py.str (title self)) (Py.str (description self)))
    | DateText s =>
        if Py.nonempty s then Raise TypeError
        else Ok (ARTICLE_FMT s (Py.str (link self))
                   (Py.str (title self)) (Py.str (description self)))
    | NoDate =>
        Ok (ARTICLE_FMT (Py.str None) (Py.str (link self))
              (Py.str (title self)) (Py.str (description self)))
    end.

(** [a.format()]: the attribute is looked up on the instance first. *)
Definition call_format (lc : Locale) (a : t) : result string :=
  if shadowed a "format" then Raise TypeError else format lc a.

End Article.

(** ** State: the file system and the standard output *)

Inductive node :=
  | Dir
  | File (content : string).

Record State := mkState {
  fs : gmap (list string) node;   (* paths as lists of components *)
  stdout : list string            (* the lines printed so far *)
}.

(** A computation that may print, write files, or raise. *)
Definition M (A : Type) : Type := State -> result A * State.

Global Instance M_ret : MRet M := fun A a st => (Ok a, st).
Global Instance M_bind : MBind M := fun A B f m st =>
  match m st with
  | (Ok a, st') => f a st'
  | (Raise e, st') => (Raise e, st')
  end.

Definition lift {A} (r : result A) : M A := fun st => (r, st).
Definition raise {A} (e : exn) : M A := fun st => (Raise e, st).

Definition print (line : string) : M unit := fun st =>
  (Ok tt, {| fs := fs st; stdout := stdout st ++ [line] |}).

Definition from_option {A} (e : exn) (o : option A) : result A :=
  match o with Some a => Ok a | None => Raise e end.

(** ** Feed *)

Module Feed.

(** The [articles] attribute: the list, or what an [articles] element put
    in its place. *)
Inductive articles_field :=
  | Articles (l : list Article.t)
  | ArticlesText (v : option string).

Record t := mk {
  title : option string;
  link : option string;
  articles : articles_field;
  shadow : list (string * option string)
}.

(** [cls()]. *)
Definition new : t :=
  {| title := Some EmptyString; link := Some EmptyString;
     articles := Articles []; shadow := [] |}.

Definition methods : list string := ["parse"; "format"].

Definition hasattr (w : World) (name : string) : bool :=
  mem name ["title"; "link"; "articles"]
  || mem name methods || mem name dataclass_attrs || object_attr w name.

Definition set_articles (f : t) (v : articles_field) : t :=
  {| title := title f; link := link f; articles := v; shadow := shadow f |}.

Definition setattr (f : t) (name : string) (v : option string) : result t :=
  if String.eqb name "title" then
    Ok {| title := v; link := link f; articles := articles f; shadow := shadow f |}
  else if String.eqb name "link" then
    Ok {| title := title f; link := v; articles := articles f; shadow := shadow f |}
  else if String.eqb name "articles" then
    Ok (set_articles f (ArticlesText v))
  else
    match guarded name with
    | Some e => Raise e
    | None =>
        Ok {| title := title f; link := link f; articles := articles f;
              shadow := (name, v) :: shadow f |}
    end.

Definition shadowed (f : t) (name : string) : bool :=
  existsb (fun p => String.eqb name (fst p)) (shadow f).

(** One turn of the loop over the children of the channel;
    [feed.articles.append] is looked up before the item is parsed. *)
Definition parse_child (w : World) (feed : t) (el : Element) : result t :=
  if String.eqb (tag el) "item" then
    match articles feed with
    | Articles l =>
        a ← Article.parse w el; Ok (set_articles feed (Articles (l ++ [a])))
    | ArticlesText _ => Raise AttributeError
    end
  else if hasattr w (tag el) then setattr feed (tag el) (text el)
  else Ok feed.

(** [data[0]]. *)
Definition first_child (data : Element) : result Element :=
  from_option IndexError (head (children data)).

Definition parse (w : World) (url : string) : M t :=
  resp ← lift (from_option RequestException (http_get w url));
  if negb (ok resp) then raise (RuntimeError ("Failed to fetch: " +:+ url))
  else
    data ← lift (from_option ParseError (xml_fromstring w (body resp)));
    channel ← lift (first_child data);
    feed ← lift (foldM (parse_child w) new (children channel));
    _ ← print ("Fetched " +:+ Py.str (title feed));
    mret feed.

Definition is_brace (c : string) : bool :=
  String.eqb c "{" || String.eqb c "}".

(** [asdict(self)] reads [__dataclass_fields__] through the instance, and
    through every article of the list. *)
Definition asdict_ok (self : t) : bool :=
  negb (shadowed self "__dataclass_fields__")
  && match articles self with
     | Articles l =>
         forallb (fun a => negb (Article.shadowed a "__dataclass_fields__")) l
     | ArticlesText _ => true
     end.

(** ["<br/>".join(a.format() for a in self.articles)]; over a text the
    loop runs [str.format] on its characters. *)
Definition format_articles (lc : Locale) (v : articles_field) : result string :=
  match v with
  | Articles l =>
      frags ← mapM (Article.call_format lc) l; Ok (Py.join "<br/>" frags)
  | ArticlesText None => Raise TypeError
  | ArticlesText (Some s) =>
      if existsb is_brace (Py.chars s) then Raise ValueError
      else Ok (Py.join "<br/>" (Py.chars s))
  end.

Definition format (lc : Locale) (self : t) : result string :=
  if asdict_ok self then
    arts ← format_articles lc (articles self);
    Ok (FEED_FMT (Py.str (link self)) (Py.str (title self)) arts)
  else Raise AttributeError.

(** [feed.format()]: the attribute is looked up on the instance first. *)
Definition call_format (lc : Locale) (f : t) : result string :=
  if shadowed f "format" then Raise TypeError else format lc f.

End Feed.

(** ** The run *)

Record Args := mkArgs {
  config : list string;
  output : list string
}.

Definition is_dir (st : State) (p : list string) : bool :=
  match fs st !! p with Some Dir => true | _ => false end.

(** [p.open("rb")] and reading it whole. *)
Definition read_bytes (p : list string) : M string := fun st =>
  match fs st !! p with
  | Some (File c) => (Ok c, st)
  | _ => (Raise OSError, st)
  end.

Definition store (p : list string) (c : string) (st : State) : State :=
  {| fs := <[p := File c]> (fs st); stdout := stdout st |}.

(** Opening [p] for writing needs its directory, and [p] not to be one.
    What can still fail once the file is open (encoding the text, the
    device) is left out: here the text is written whole or not at all. *)
Definition write_text (p : list string) (c : string) : M unit := fun st =>
  if is_dir st (removelast p) && negb (is_dir st p)
  then (Ok tt, store p c st) else (Raise OSError, st).

(** [shutil.copy]: a directory as destination receives the file under the
    name it has; a file cannot be copied onto itself. *)
Definition shutil_copy (src dst : list string) : M unit := fun st =>
  let dst' := if is_dir st dst then dst ++ [List.last src EmptyString] else dst in
  match fs st !! src with
  | Some (File c) =>
      if bool_decide (src = dst') then (Raise OSError, st)
      else write_text dst' c st
  | _ => (Raise OSError, st)
  end.

Definition render_feed (w : World) (url : string) : M string :=
  feed ← Feed.parse w url; lift (Feed.call_format (locale w) feed).

Definition render_category (w : World) (entry : string * list string) : M string :=
  feeds ← mapM (render_feed w) (snd entry);
  mret (CATEGORY_FMT (fst entry) (Py.join Py.newline feeds)).

Definition main (w : World) (args : Args) : M unit :=
  fun st =>
  if is_dir st (output args) then
    (bytes ← read_bytes (config args);
     cfg ← lift (from_option TOMLDecodeError (toml_load w bytes));
     categories ← mapM (render_category w) cfg;
     _ ← write_text (output args ++ ["index.html"])
           (HTML_FMT (Py.join Py.newline categories));
     if bool_decide (output args = CODE_DIR w) then mret tt
     else shutil_copy (CODE_DIR w ++ ["style.css"]) (output args ++ ["style.css"])) st
  else (Raise AssertionError, st).

(** ** What the specification talks about *)

Module Spec.

(** The [item] children of a channel, in document order. *)
Definition items (channel : Element) : list Element :=
  List.filter (fun el => String.eqb (tag el) "item") (children channel).

(** A child of an item as the specification describes feeds: a date the
    locale can read (or none), a description, a title, a link, or a tag
    that names no attribute. *)
Definition valid_item_child (w : World) (el : Element) : bool :=
  if String.eqb (tag el) "pubDate" then
    match text el with
    | Some s =>
        negb (Py.nonempty s)
        || Py.is_Some_b (strptime_dbY (locale w) (Article.date_tokens s))
    | None => true
    end
  else if String.eqb (tag el) "description" then true
  else mem (tag el) ["title"; "link"] || negb (Article.hasattr w (tag el)).

Definition valid_item (w : World) (item : Element) : bool :=
  forallb (valid_item_child w) (children item).

Definition valid_channel_child (w : World) (el : Element) : bool :=
  if String.eqb (tag el) "item" then valid_item w el
  else mem (tag el) ["title"; "link"] || negb (Feed.hasattr w (tag el)).

Definition valid_channel (w : World) (channel : Element) : bool :=
  forallb (valid_channel_child w) (children channel).

(** The URL answers with success and a valid feed document. *)
Definition feed_ok (w : World) (url : string) : bool :=
  match http_get w url with
  | Some resp =>
      ok resp
      && match xml_fromstring w (body resp) with
         | Some data =>
             match children data with
             | channel :: _ => valid_channel w channel
             | [] => false
             end
         | None => false
         end
  | None => false
  end.

(** The configuration file of [args] loads as [cfg]. *)
Definition loads (w : World) (args : Args) (st : State) (cfg : Config) : Prop :=
  exists bytes,
    fs st !! config args = Some (File bytes) /\ toml_load w bytes = Some cfg.

Definition configured (cfg : Config) (url : string) : Prop :=
  exists entry, In entry cfg /\ In url (snd entry).

Definition aborts (w : World) (args : Args) (st : State) : Prop :=
  exists e st', main w args st = (Raise e, st') /\ fs st' = fs st.

(** Fetch failures as the specification words them: any status outside
    200 to 299. *)
Definition non_2xx (resp : Response) : Prop :=
  ~ (200 <= status_code resp < 300).

Definition fetch_failure_is_fatal (w : World) (args : Args) (st : State) : Prop :=
  forall cfg url resp,
    loads w args st cfg -> configured cfg url ->
    http_get w url = Some resp -> non_2xx resp ->
    (exists e st', Feed.parse w url st = (Raise e, st')) /\ aborts w args st.

(** Line filtering as the specification words it: the lines of the result
    are the lines without the marker, as they were and in their order. *)
Definition only_marker_lines_removed (s : string) : Prop :=
  Py.splitlines (Article.parse_description s)
  = List.filter (fun ln => negb (Py.contains Article.bad ln)) (Py.splitlines s).

Definition no_description_child (item : Element) : Prop :=
  Forall (fun el => tag el <> "description") (children item).

(** The last part of the specification's rule on descriptions: without a
    description element the field is unset. *)
Definition absent_description_unset (w : World) : Prop :=
  forall item a,
    Article.parse w item = Ok a -> no_description_child item ->
    Article.description a = None.

(** The fragment of an article with the date prefix left out. *)
Definition fragment_without_date (link title description : string) : string :=
"
<li class=" +:+ q "article" +:+ ">
    <a href=" +:+ q link +:+ " target=" +:+ q "new" +:+ ">" +:+ title +:+ "</a>
    <br/>
    <div class=" +:+ q "article-description" +:+ ">" +:+ description +:+ "</div>
</li>
".

Definition undated_omits_prefix (lc : Locale) (a : Article.t) : Prop :=
  Article.date a = Article.NoDate ->
  Article.format lc a
  = Ok (fragment_without_date (Py.str (Article.link a)) (Py.str (Article.title a))
          (Py.str (Article.description a))).

(** What the walk over a channel makes of a child that is no item, as the
    specification words it. *)
Definition other_tags_ignored (w : World) (feed : Feed.t) (el : Element) : Prop :=
  tag el <> "item" -> tag el <> "title" -> tag el <> "link" ->
  Feed.parse_child w feed el = Ok feed.

(** The block of one feed: its articles are the parsed items of the
    document, rendered and joined in their order. *)
Definition feed_block (w : World) (url block : string) : Prop :=
  exists resp data channel rest feed arts frags,
    http_get w url = Some resp /\
    xml_fromstring w (body resp) = Some data /\
    children data = channel :: rest /\
    foldM (Feed.parse_child w) Feed.new (children channel) = Ok feed /\
    Forall2 (fun it a => Article.parse w it = Ok a) (items channel) arts /\
    Forall2 (fun a frag => Article.format (locale w) a = Ok frag) arts frags /\
    block = FEED_FMT (Py.str (Feed.link feed)) (Py.str (Feed.title feed))
              (Py.join "<br/>" frags).

(** The block of one category: the blocks of its URLs, in their order. *)
Definition category_block (w : World) (entry : string * list string)
    (block : string) : Prop :=
  exists feeds,
    Forall2 (feed_block w) (snd entry) feeds /\
    block = CATEGORY_FMT (fst entry) (Py.join Py.newline feeds).

End Spec.

(** ** Invariants *)

(** An article as a valid item leaves it: nothing shadowed, and a date that
    is a date. *)
Definition plain_article (a : Article.t) : Prop :=
  Article.shadow a = [] /\ forall s, Article.date a <> Article.DateText s.

(** A feed as a valid channel leaves it, with [l] for its articles. *)
Definition plain_feed (f : Feed.t) (l : list Article.t) : Prop :=
  Feed.shadow f = [] /\ Feed.articles f = Feed.Articles l /\ Forall plain_article l.

(** The computation leaves the files alone. *)
Definition keeps_fs {A} (m : M A) : Prop :=
  forall st r st', m st = (r, st') -> fs st' = fs st.

(** The computation raises, whatever the state it starts in. *)
Definition always_raises {A} (m : M A) : Prop :=
  forall st, exists e st', m st = (Raise e, st').

(** ** A concrete world *)

Module Demo.

Definition el (t : string) (x : string) : Element := mkElement t (Some x) [].

Definition hello_description : string :=
  "Hello world" +:+ Py.newline +:+ "The post Hello appeared first on Example.".

Definition hello_item : Element :=
  mkElement "item" None
    [el "title" "Hello"; el "link" "http://x/1";
     el "pubDate" "Mon, 01 Jan 2024 00:00:00 GMT";
     el "description" hello_description].

Definition rss (channel_children : list Element) : Element :=
  mkElement "rss" None [mkElement "channel" None channel_children].

Definition example_doc : Element :=
  rss [el "title" "Example Feed"; el "link" "http://x/"; hello_item].

Definition example_xml : string :=
  "<rss><channel><title>Example Feed</title><link>http://x/</link><item><title>Hello</title><link>http://x/1</link><pubDate>Mon, 01 Jan 2024 00:00:00 GMT</pubDate><description>"
  +:+ hello_description +:+ "</description></item></channel></rss>".

Definition undated_item : Element :=
  mkElement "item" None [el "title" "Plain"; mkElement "pubDate" None []].

Definition baddate_item : Element :=
  mkElement "item" None [el "title" "Late"; el "pubDate" "2024-01-01"].

Definition baddate_doc : Element := rss [el "title" "Dates"; baddate_item].

Definition baddate_xml : string :=
  "<rss><channel><title>Dates</title><item><title>Late</title><pubDate>2024-01-01</pubDate></item></channel></rss>".

Definition clobber_doc : Element :=
  rss [el "title" "Clobber"; undated_item; el "articles" "x"].

Definition clobber_xml : string :=
  "<rss><channel><title>Clobber</title><item><title>Plain</title><pubDate/></item><articles>x</articles></channel></rss>".

(** The documents the parser is known on. *)
Definition documents : gmap string Element :=
  list_to_map
    [(example_xml, example_doc); (baddate_xml, baddate_doc);
     (clobber_xml, clobber_doc)].

(** The network: what each URL answers. *)
Definition net : gmap string Response :=
  list_to_map
    [("http://x/feed", mkResponse 200 example_xml);
     ("http://x/many", mkResponse 300 example_xml);
     ("http://x/down", mkResponse 503 "Service Unavailable");
     ("http://x/dates", mkResponse 200 baddate_xml);
     ("http://x/clobber", mkResponse 200 clobber_xml)].

Definition toml (category url : string) : string :=
  category +:+ " = [" +:+ q url +:+ "]".

Definition configs : gmap string Config :=
  list_to_map
    [(toml "Tech" "http://x/feed", [("Tech", ["http://x/feed"])]);
     (toml "Tech" "http://x/many", [("Tech", ["http://x/many"])]);
     (toml "Tech" "http://x/down", [("Tech", ["http://x/down"])]);
     (toml "Tech" "http://x/dates", [("Tech", ["http://x/dates"])])].

(** The attribute names of an [object] in CPython 3.12, with the names a
    class statement adds. *)
Definition cpython_attrs : list string :=
  ["__class__"; "__delattr__"; "__dir__"; "__doc__"; "__eq__"; "__format__";
   "__ge__"; "__getattribute__"; "__getstate__"; "__gt__"; "__hash__";
   "__init__"; "__init_subclass__"; "__le__"; "__lt__"; "__ne__"; "__new__";
   "__reduce__"; "__reduce_ex__"; "__repr__"; "__setattr__"; "__sizeof__";
   "__str__"; "__subclasshook__";
   "__annotations__"; "__dict__"; "__module__"; "__weakref__"].

Definition code_dir : list string := ["srv"; "dumbrss"].

Definition world : World :=
  {| http_get := fun url => net !! url;
     xml_fromstring := fun x => documents !! x;
     toml_load := fun bytes => configs !! bytes;
     locale := CLocale.locale;
     object_attr := fun name => mem name cpython_attrs;
     CODE_DIR := code_dir |}.

Definition disk : gmap (list string) node :=
  list_to_map
    [(code_dir, Dir);
     (code_dir ++ ["style.css"], File "main { margin: auto }");
     (code_dir ++ ["feeds.toml"], File (toml "Tech" "http://x/feed"));
     (code_dir ++ ["many.toml"], File (toml "Tech" "http://x/many"));
     (code_dir ++ ["down.toml"], File (toml "Tech" "http://x/down"));
     (code_dir ++ ["dates.toml"], File (toml "Tech" "http://x/dates"));
     (["www"], Dir)].

Definition start : State := {| fs := disk; stdout := [] |}.

Definition args (config_name : string) : Args :=
  {| config := code_dir ++ [config_name]; output := ["www"] |}.

End Demo.

(** ** Further notions *)

(** The children of an item on which the loop of [Article.parse] raises:
    a date the locale cannot read, or a tag naming an attribute that
    [setattr] refuses to bind. *)
Definition fatal_item_child (w : World) (el : Element) : bool :=
  if String.eqb (tag el) "pubDate" then
    match text el with
    | Some s =>
        Py.nonempty s
        && negb (Py.is_Some_b (strptime_dbY (locale w) (Article.date_tokens s)))
    | None => false
    end
  else if String.eqb (tag el) "description" then false
  else Article.hasattr w (tag el) && Py.is_Some_b (guarded (tag el)).

(** The progress line of a URL: the title the walk over its channel ends
    with, after [Fetched]. *)
Definition progress_line (w : World) (url line : string) : Prop :=
  exists resp data channel rest feed,
    http_get w url = Some resp /\
    xml_fromstring w (body resp) = Some data /\
    children data = channel :: rest /\
    foldM (Feed.parse_child w) Feed.new (children channel) = Ok feed /\
    line = "Fetched " +:+ Py.str (Feed.title feed).

(** The parts occur in the text one after the other, in their order. *)
Fixpoint in_order (parts : list string) (text : string) : Prop :=
  match parts with
  | [] => True
  | part :: parts' =>
      exists before after,
        text = before +:+ part +:+ after /\ in_order parts' after
  end.

(** A block of the page for a URL: the fragments of the articles parsed
    from the items of its document occur in it in the order of the items. *)
Definition ordered_feed (w : World) (url block : string) : Prop :=
  exists resp data channel rest arts frags,
    http_get w url = Some resp /\
    xml_fromstring w (body resp) = Some data /\
    children data = channel :: rest /\
    Forall2 (fun item a => Article.parse w item = Ok a) (Spec.items channel) arts /\
    Forall2 (fun a frag => Article.format (locale w) a = Ok frag) arts frags /\
    in_order frags block.

(** A block of the page for a category: its name, then the blocks of its
    URLs in their order. *)
Definition ordered_category (w : World) (entry : string * list string)
    (block : string) : Prop :=
  exists feeds,
    Forall2 (ordered_feed w) (snd entry) feeds /\
    in_order (fst entry :: feeds) block.

(** The demo world with a configuration that names the feed whose channel
    holds an [articles] element. *)
Definition clobber_world : World :=
  {| http_get := http_get Demo.world;
     xml_fromstring := xml_fromstring Demo.world;
     toml_load := fun _ => Some [("Tech", ["http://x/clobber"])];
     locale := locale Demo.world;
     object_attr := object_attr Demo.world;
     CODE_DIR := CODE_DIR Demo.world |}.

(** A world that serves one document under every URL, and one category
    with one URL as configuration. *)
Module Probe.

Definition world (doc : Element) : World :=
  {| http_get := fun _ => Some (mkResponse 200 EmptyString);
     xml_fromstring := fun _ => Some doc;
     toml_load := fun _ => Some [("News", ["http://x/probe"])];
     locale := CLocale.locale;
     object_attr := fun name => mem name Demo.cpython_attrs;
     CODE_DIR := Demo.code_dir |}.

End Probe.

(* ================================================================== *)
(** * Properties *)

(** ** The model at work *)

Example splitlines_boundaries :
  Py.splitlines ("a" +:+ String Py.CR (String Py.LF "b") +:+ Py.newline
                 +:+ Py.newline +:+ "c" +:+ Py.newline)
  = ["a"; "b"; ""; "c"].
Proof. reflexivity. Qed.

Example split_pubdate :
  Py.split " " "Wed, 04 Oct 2023 10:00:00 GMT"
  = ["Wed,"; "04"; "Oct"; "2023"; "10:00:00"; "GMT"].
Proof. reflexivity. Qed.

Example strptime_plain : CLocale.strptime "04 Oct 2023" = Some (mkdatetime 2023 10 4 0 0 0).
Proof. reflexivity. Qed.

Example strptime_any_case : CLocale.strptime "4 oCT 2023" = Some (mkdatetime 2023 10 4 0 0 0).
Proof. reflexivity. Qed.

Example strptime_no_such_day : CLocale.strptime "29 Feb 2023" = None.
Proof. reflexivity. Qed.

Example strptime_no_weekday : CLocale.strptime (Article.date_tokens "04 Oct 2023 10:00:00 GMT") = None.
Proof. reflexivity. Qed.

Example strptime_trailing_text : CLocale.strptime "04 Oct 2023 " = None.
Proof. reflexivity. Qed.

(** The end-to-end scenario of the specification: one category, one feed,
    one item whose description loses its boilerplate line. *)
Example end_to_end :
  main Demo.world (Demo.args "feeds.toml") Demo.start
  = (Ok tt,
     {| fs :=
          <[ ["www"; "style.css"] := File "main { margin: auto }" ]>
            (<[ ["www"; "index.html"] :=
                  File (HTML_FMT
                          (CATEGORY_FMT "Tech"
                             (FEED_FMT "http://x/" "Example Feed"
                                (ARTICLE_FMT "01/01/24" "http://x/1" "Hello"
                                   "Hello world")))) ]> Demo.disk);
        stdout := ["Fetched Example Feed"] |}).
Proof. vm_compute. reflexivity. Qed.

(** A failed fetch: nothing is written. *)
Example end_to_end_failure :
  main Demo.world (Demo.args "down.toml") Demo.start
  = (Raise (RuntimeError "Failed to fetch: http://x/down"), Demo.start).
Proof. vm_compute. reflexivity. Qed.

(** ** Lines and joins *)

Section Lines.
Import Py.

Lemma splitlines_unfold c s :
  splitlines (String c s) =
  match eol (String c s) with
  | Some r => EmptyString :: splitlines r
  | None => push c (splitlines s)
  end.
Proof.
  destruct s as [|c2 [|c3 s3]]; simpl;
    repeat (case_match; simpl; try reflexivity; try discriminate);
    simplify_eq; reflexivity.
Qed.

Lemma linebreak_not_CR c : is_linebreak c = false -> Ascii.eqb c CR = false.
Proof.
  unfold is_linebreak; simpl. intros H.
  destruct (Ascii.eqb c CR); [|reflexivity].
  rewrite orb_true_r in H. simpl in H. discriminate.
Qed.

Lemma eol_LF t : eol (String LF t) = Some t.
Proof. destruct t as [|c2 [|c3 t]]; reflexivity. Qed.

(** A boundary never needs a following LF to be one, CR apart, which is a
    boundary already. *)
Lemma eol_app_LF l t :
  l <> EmptyString -> eol l = None -> eol (l +:+ String LF t) = None.
Proof.
  intros Hne H. destruct l as [|c [|c2 [|c3 l]]]; [congruence| | |].
  - simpl in *. destruct (is_linebreak c) eqn:Hc; [discriminate|].
    unfold boundary2. rewrite (linebreak_not_CR _ Hc). simpl.
    rewrite andb_false_r. simpl.
    destruct t; [reflexivity|].
    unfold boundary3. simpl. rewrite andb_false_r. reflexivity.
  - simpl in *. destruct (boundary2 c c2); [discriminate|].
    unfold boundary3. simpl. rewrite andb_false_r. simpl.
    destruct (is_linebreak c); [discriminate|reflexivity].
  - simpl in *. repeat case_match; congruence.
Qed.

(** A boundary seen in a prefix is a boundary of the whole text. *)
Lemma eol_prefix_None p r :
  eol (p +:+ r) = None -> eol p = None.
Proof.
  destruct p as [|c [|c2 [|c3 p]]]; [reflexivity| | |].
  - simpl. destruct r as [|r1 [|r2 r]]; simpl; repeat case_match; congruence.
  - simpl. destruct r as [|r1 r]; simpl; repeat case_match; congruence.
  - simpl. repeat case_match; congruence.
Qed.

Lemma nobreak_splitlines l :
  l <> EmptyString -> nobreak l = true -> splitlines l = [l].
Proof.
  induction l as [|c l IH]; [congruence|].
  intros _ H. cbn [nobreak] in H. apply andb_true_iff in H as [H1 H2].
  rewrite splitlines_unfold.
  destruct (eol (String c l)); [discriminate|].
  destruct l as [|c' l']; [reflexivity|].
  rewrite IH by (congruence || assumption). reflexivity.
Qed.

Lemma splitlines_line_LF l t :
  nobreak l = true -> splitlines (l +:+ String LF t) = l :: splitlines t.
Proof.
  induction l as [|c l IH]; intros H.
  - change (EmptyString +:+ String LF t) with (String LF t).
    rewrite splitlines_unfold, eol_LF. reflexivity.
  - cbn [nobreak] in H. apply andb_true_iff in H as [H1 H2].
    change (String c l +:+ String LF t) with (String c (l +:+ String LF t)).
    rewrite splitlines_unfold.
    change (String c (l +:+ String LF t)) with (String c l +:+ String LF t).
    rewrite eol_app_LF; [|congruence|destruct (eol (String c l)); [discriminate|reflexivity]].
    rewrite IH by assumption. reflexivity.
Qed.

Lemma splitlines_first_prefix s l ls :
  splitlines s = l :: ls -> exists r, s = l +:+ r.
Proof.
  revert l ls. induction s as [|c s IH]; intros l ls H; [discriminate|].
  rewrite splitlines_unfold in H.
  destruct (eol (String c s)) as [r|].
  - injection H as <- _. eexists; reflexivity.
  - destruct (splitlines s) as [|l' ls'] eqn:E; simpl in H.
    + injection H as <- _. exists s. reflexivity.
    + injection H as <- _. destruct (IH _ _ eq_refl) as [r ->].
      exists r. reflexivity.
Qed.

Lemma eol_shorter s r : eol s = Some r -> (String.length r < String.length s)%nat.
Proof.
  destruct s as [|c [|c2 [|c3 s]]]; simpl; intros H;
    repeat case_match; simplify_eq; simpl; lia.
Qed.

(** Every line [splitlines] returns is free of boundaries. *)
Lemma splitlines_nobreak s : Forall (fun l => nobreak l = true) (splitlines s).
Proof.
  remember (String.length s) as n eqn:Hn.
  revert s Hn. induction n as [n IH] using lt_wf_ind. intros s Hn.
  destruct s as [|c s]; [constructor|].
  rewrite splitlines_unfold.
  destruct (eol (String c s)) as [r|] eqn:E.
  - constructor; [reflexivity|].
    apply (IH (String.length r)); [|reflexivity].
    subst n. exact (eol_shorter _ _ E).
  - assert (Hs : Forall (fun l => nobreak l = true) (splitlines s)).
    { apply (IH (String.length s)); [subst n; simpl; lia | reflexivity]. }
    destruct (splitlines s) as [|l ls] eqn:El; simpl.
    + constructor; [|constructor]. cbn [nobreak].
      rewrite (eol_prefix_None (String c EmptyString) s E). reflexivity.
    + destruct (splitlines_first_prefix _ _ _ El) as [r Hr].
      inversion Hs as [|? ? Hl Hls]; subst.
      constructor; [|assumption]. cbn [nobreak].
      rewrite (eol_prefix_None (String c l) r E). simpl. exact Hl.
Qed.

(** Splitting a join of non-empty, boundary-free lines gives the lines back. *)
Lemma splitlines_join ls :
  Forall (fun l => nonempty l = true /\ nobreak l = true) ls ->
  splitlines (join (String LF EmptyString) ls) = ls.
Proof.
  induction ls as [|l ls IH]; intros H; [reflexivity|].
  inversion H as [|? ? [Hne Hnb] Hls]; subst.
  destruct ls as [|l' ls].
  - simpl. apply nobreak_splitlines; [destruct l; [discriminate|congruence]|assumption].
  - change (join (String LF EmptyString) (l :: l' :: ls))
      with (l +:+ String LF (join (String LF EmptyString) (l' :: ls))).
    rewrite splitlines_line_LF by assumption.
    rewrite IH by assumption. reflexivity.
Qed.

End Lines.

(** ** Description cleaning *)

Section Cleaning.
Import Py.

Lemma keep_nonempty ln : Article.keep ln = true -> nonempty ln = true.
Proof. unfold Article.keep. intros H. apply andb_true_iff in H as [H _]. exact H. Qed.

Lemma filter_keep_twice ls :
  List.filter Article.keep (List.filter Article.keep ls) = List.filter Article.keep ls.
Proof.
  induction ls as [|l ls IH]; [reflexivity|]. simpl.
  destruct (Article.keep l) eqn:E; [|exact IH].
  simpl. rewrite E, IH. reflexivity.
Qed.

Lemma kept_lines_split_back s :
  splitlines (Article.parse_description s)
  = List.filter Article.keep (splitlines s).
Proof.
  unfold Article.parse_description. apply splitlines_join.
  pose proof (splitlines_nobreak s) as Hnb.
  induction (splitlines s) as [|l ls IH]; [constructor|].
  inversion Hnb as [|? ? Hl Hls]; subst. simpl.
  destruct (Article.keep l) eqn:E; [|exact (IH Hls)].
  constructor; [|exact (IH Hls)].
  split; [exact (keep_nonempty _ E)|exact Hl].
Qed.

(** C3: cleaning a description that is already clean changes nothing. *)
Theorem parse_description_idempotent (s : string) :
  Article.parse_description (Article.parse_description s)
  = Article.parse_description s.
Proof.
  unfold Article.parse_description at 1.
  rewrite kept_lines_split_back, filter_keep_twice. reflexivity.
Qed.

(** C4, as the code has it: the lines of the cleaned text are the lines of
    the input that are not empty and do not contain the marker, as they were
    and in their order; so no line of the result contains the marker. *)
Theorem parse_description_lines (s : string) :
  splitlines (Article.parse_description s)
  = List.filter (fun ln => nonempty ln && negb (contains Article.bad ln))
      (splitlines s)
  /\ Forall (fun ln => contains Article.bad ln = false)
       (splitlines (Article.parse_description s)).
Proof.
  split; [exact (kept_lines_split_back s)|].
  rewrite kept_lines_split_back.
  induction (splitlines s) as [|l ls IH]; [constructor|]. simpl.
  destruct (Article.keep l) eqn:E; [|exact IH].
  constructor; [|exact IH].
  unfold Article.keep in E. apply andb_true_iff in E as [_ E].
  destruct (contains Article.bad l); [discriminate|reflexivity].
Qed.

(** C4, as stated, fails on an empty line: it does not contain the marker
    and is dropped all the same. *)
Lemma empty_line_is_dropped :
  ~ Spec.only_marker_lines_removed ("a" +:+ newline +:+ newline +:+ "b").
Proof. unfold Spec.only_marker_lines_removed. vm_compute. discriminate. Qed.

End Cleaning.

(** ** Dates and article fragments *)

Lemma append_assoc (a b c : string) : (a +:+ b) +:+ c = a +:+ b +:+ c.
Proof.
  induction a as [|x a IH]; [reflexivity|].
  change (String x ((a +:+ b) +:+ c) = String x (a +:+ b +:+ c)).
  rewrite IH. reflexivity.
Qed.

(** What stands before the date in a fragment. *)
Lemma ARTICLE_FMT_shape date link title description :
  exists rest,
    ARTICLE_FMT date link title description
    = ("
<li class=" +:+ q "article" +:+ ">
    ") +:+ date +:+ " - " +:+ "<a href=" +:+ q link +:+ rest.
Proof.
  eexists. unfold ARTICLE_FMT. rewrite !append_assoc.
  change (" - <a href=" +:+ ?x) with (" - " +:+ "<a href=" +:+ x).
  reflexivity.
Qed.

(** C5: the date of the specification's example, parsed and rendered in
    the locale the program runs in. *)
Theorem date_round_trip :
  Article.parse_dt CLocale.locale "Wed, 04 Oct 2023 10:00:00 GMT"
  = Ok (mkdatetime 2023 10 4 0 0 0)
  /\ strftime_x CLocale.locale (mkdatetime 2023 10 4 0 0 0) = "10/04/23"
  /\ forall title link description,
       Article.format CLocale.locale
         (Article.mk title link description
            (Article.Date (mkdatetime 2023 10 4 0 0 0)) [])
       = Ok (ARTICLE_FMT "10/04/23" (Py.str link) (Py.str title)
               (Py.str description)).
Proof.
  split; [vm_compute; reflexivity|].
  split; [vm_compute; reflexivity|].
  intros title link description. reflexivity.
Qed.

(** C7, as the code has it: a dated article shows its date in the locale's
    short form, then [" - "], then the link; an undated one shows [None] in
    the place of the date. *)
Theorem format_date_prefix (lc : Locale) (a : Article.t) :
  Article.shadowed a "__dataclass_fields__" = false ->
  (forall d, Article.date a = Article.Date d ->
     exists rest,
       Article.format lc a
       = Ok (("
<li class=" +:+ q "article" +:+ ">
    ") +:+ strftime_x lc d +:+ " - " +:+ "<a href=" +:+ q (Py.str (Article.link a)) +:+ rest))
  /\ (Article.date a = Article.NoDate ->
      exists rest,
        Article.format lc a
        = Ok (("
<li class=" +:+ q "article" +:+ ">
    ") +:+ "None" +:+ " - " +:+ "<a href=" +:+ q (Py.str (Article.link a)) +:+ rest)).
Proof.
  intros Hs. unfold Article.format. rewrite Hs. split.
  - intros d ->.
    destruct (ARTICLE_FMT_shape (strftime_x lc d) (Py.str (Article.link a))
                (Py.str (Article.title a)) (Py.str (Article.description a)))
      as [rest ->].
    exists rest. reflexivity.
  - intros ->.
    destruct (ARTICLE_FMT_shape (Py.str None) (Py.str (Article.link a))
                (Py.str (Article.title a)) (Py.str (Article.description a)))
      as [rest ->].
    exists rest. reflexivity.
Qed.

Lemma format_date_prefix_witness :
  exists rest,
    Article.format CLocale.locale
      (Article.mk (Some "Hello") (Some "http://x/1") (Some "Hello world")
         (Article.Date (mkdatetime 2024 1 1 0 0 0)) [])
    = Ok (("
<li class=" +:+ q "article" +:+ ">
    ") +:+ "01/01/24" +:+ " - " +:+ "<a href=" +:+ q "http://x/1" +:+ rest).
Proof.
  exact (proj1 (format_date_prefix CLocale.locale
           (Article.mk (Some "Hello") (Some "http://x/1") (Some "Hello world")
              (Article.Date (mkdatetime 2024 1 1 0 0 0)) []) eq_refl)
           (mkdatetime 2024 1 1 0 0 0) eq_refl).
Defined.

(** C7, as stated, fails on an undated article: the prefix stays, with
    [None] for the date. *)
Lemma undated_keeps_prefix :
  ~ Spec.undated_omits_prefix CLocale.locale Article.new.
Proof.
  unfold Spec.undated_omits_prefix. intros H.
  specialize (H eq_refl). vm_compute in H. discriminate.
Qed.

(** ** Loops *)

Section Loops.
Context {A B : Type} (f : A -> B -> result A).

Lemma foldM_app a l1 l2 :
  foldM f a (l1 ++ l2)
  = match foldM f a l1 with
    | Ok a' => foldM f a' l2
    | Raise e => Raise e
    end.
Proof.
  revert a. induction l1 as [|x l1 IH]; intros a; [reflexivity|].
  simpl. destruct (f a x); [apply IH|reflexivity].
Qed.

(** A property every successful turn keeps is kept by the loop. *)
Lemma foldM_invariant (P : A -> Prop) (Q : B -> Prop) l :
  (forall a x a', Q x -> P a -> f a x = Ok a' -> P a') ->
  Forall Q l ->
  forall a a', P a -> foldM f a l = Ok a' -> P a'.
Proof.
  intros Hstep HQ. induction HQ as [|x l Hx Hl IH]; intros a a' Ha H; simpl in H.
  - congruence.
  - destruct (f a x) as [a1|] eqn:E; [|discriminate].
    exact (IH _ _ (Hstep _ _ _ Hx Ha E) H).
Qed.

(** A turn that always raises makes the loop raise. *)
Lemma foldM_raises a pre x post :
  (forall a1, exists e, f a1 x = Raise e) ->
  exists e, foldM f a (pre ++ x :: post) = Raise e.
Proof.
  intros Hx. rewrite foldM_app.
  destruct (foldM f a pre) as [a1|e]; [|eauto].
  simpl. destruct (Hx a1) as [e ->]. eauto.
Qed.

End Loops.

(** ** Parsing an item *)

Section Items.
Variable w : World.

Lemma parse_child_description a el :
  tag el = "description" ->
  Article.parse_child w a el
  = Ok (Article.set_description a
          (match text el with
           | Some s => if Py.nonempty s then Some (Article.parse_description s) else None
           | None => None
           end)).
Proof.
  intros Ht. unfold Article.parse_child. rewrite Ht. simpl.
  destruct (text el); reflexivity.
Qed.

Lemma setattr_keeps_description a name v a' :
  name <> "description" ->
  Article.setattr a name v = Ok a' ->
  Article.description a' = Article.description a.
Proof.
  intros Hn. unfold Article.setattr.
  destruct (String.eqb_spec name "description") as [?|_]; [contradiction|].
  repeat case_match; intros ?; simplify_eq; reflexivity.
Qed.

Lemma parse_child_keeps_description a el a' :
  tag el <> "description" ->
  Article.parse_child w a el = Ok a' ->
  Article.description a' = Article.description a.
Proof.
  intros Hn. unfold Article.parse_child.
  destruct (String.eqb_spec (tag el) "description") as [?|_]; [contradiction|].
  destruct (String.eqb (tag el) "pubDate").
  - destruct (text el) as [s|]; [destruct (Py.nonempty s)|];
      [destruct (Article.parse_dt (locale w) s); simpl| |];
      intros ?; simplify_eq; reflexivity.
  - destruct (Article.hasattr w (tag el)).
    + apply setattr_keeps_description, Hn.
    + intros ?; simplify_eq; reflexivity.
Qed.

Lemma parse_keeps_description a els a' :
  Forall (fun el => tag el <> "description") els ->
  foldM (Article.parse_child w) a els = Ok a' ->
  Article.description a' = Article.description a.
Proof.
  intros Hels H.
  refine (foldM_invariant (Article.parse_child w)
            (fun x => Article.description x = Article.description a)
            (fun el => tag el <> "description") els _ Hels a a' eq_refl H).
  intros a1 el a2 Hel Ha1 Hstep.
  rewrite (parse_child_keeps_description _ _ _ Hel Hstep). exact Ha1.
Qed.

(** C6, as the code has it: the last description element decides; its text
    cleaned when there is text, [None] when there is none; an item without
    a description element keeps the default, the empty text. *)
Theorem description_field (item : Element) (a : Article.t) :
  Article.parse w item = Ok a ->
  (forall pre el post,
     children item = pre ++ el :: post ->
     tag el = "description" ->
     Forall (fun e => tag e <> "description") post ->
     Article.description a
     = match text el with
       | Some s => if Py.nonempty s then Some (Article.parse_description s) else None
       | None => None
       end)
  /\ (Spec.no_description_child item ->
      Article.description a = Some EmptyString).
Proof.
  intros Hp. unfold Article.parse in Hp. split.
  - intros pre el post Hc Ht Hpost. rewrite Hc, foldM_app in Hp.
    destruct (foldM (Article.parse_child w) Article.new pre) as [a1|]; [|discriminate].
    simpl in Hp. rewrite (parse_child_description a1 el Ht) in Hp.
    rewrite (parse_keeps_description _ _ _ Hpost Hp). reflexivity.
  - intros Hno. rewrite (parse_keeps_description _ _ _ Hno Hp). reflexivity.
Qed.

(** A date the locale cannot read stops the loop with [ValueError]. *)
Lemma parse_child_bad_date a el s :
  tag el = "pubDate" -> text el = Some s -> s <> EmptyString ->
  strptime_dbY (locale w) (Article.date_tokens s) = None ->
  Article.parse_child w a el = Raise ValueError.
Proof.
  intros Ht Hx Hs Hd. unfold Article.parse_child, Article.parse_dt.
  rewrite Ht, Hx, Hd. simpl.
  destruct s; [congruence|reflexivity].
Qed.

End Items.

Lemma description_field_witness :
  Article.parse Demo.world Demo.hello_item
  = Ok (Article.mk (Some "Hello") (Some "http://x/1") (Some "Hello world")
          (Article.Date (mkdatetime 2024 1 1 0 0 0)) [])
  /\ Some "Hello world" = Some (Article.parse_description Demo.hello_description).
Proof.
  assert (Hp : Article.parse Demo.world Demo.hello_item
               = Ok (Article.mk (Some "Hello") (Some "http://x/1")
                       (Some "Hello world")
                       (Article.Date (mkdatetime 2024 1 1 0 0 0)) []))
    by (vm_compute; reflexivity).
  split; [exact Hp|].
  exact (proj1 (description_field Demo.world Demo.hello_item _ Hp)
           [Demo.el "title" "Hello"; Demo.el "link" "http://x/1";
            Demo.el "pubDate" "Mon, 01 Jan 2024 00:00:00 GMT"]
           (Demo.el "description" Demo.hello_description) []
           eq_refl eq_refl (Forall_nil_2 _)).
Defined.

(** C6, as stated, fails on an item without a description element: the
    field is the empty text, not [None]. *)
Lemma absent_description_is_empty_text :
  ~ Spec.absent_description_unset Demo.world.
Proof.
  intros H.
  specialize (H (mkElement "item" None []) Article.new eq_refl (Forall_nil_2 _)).
  discriminate.
Qed.

(** ** Walking a channel *)

Lemma mapM_result_cons {A B} (f : A -> result B) x l :
  mapM f (x :: l)
  = match f x with
    | Ok y => match mapM f l with Ok k => Ok (y :: k) | Raise e => Raise e end
    | Raise e => Raise e
    end.
Proof. reflexivity. Qed.

Lemma mapM_result_Forall2 {A B} (f : A -> result B) (R : A -> B -> Prop) l :
  Forall (fun a => exists b, f a = Ok b /\ R a b) l ->
  exists bs, mapM f l = Ok bs /\ Forall2 R l bs.
Proof.
  induction 1 as [|a l [b [Hb HR]] _ [bs [Hbs HF]]].
  - exists []. split; [reflexivity|constructor].
  - exists (b :: bs). rewrite mapM_result_cons, Hb, Hbs.
    split; [reflexivity|constructor; assumption].
Qed.

Section Channel.
Variable w : World.

Lemma mem_title_link name :
  mem name ["title"; "link"] = true -> name = "title" \/ name = "link".
Proof.
  unfold mem. simpl. rewrite orb_false_r. intros H.
  apply orb_true_iff in H as [H|H]; apply String.eqb_eq in H; auto.
Qed.

Lemma valid_item_child_step a el :
  Spec.valid_item_child w el = true -> plain_article a ->
  exists a', Article.parse_child w a el = Ok a' /\ plain_article a'.
Proof.
  unfold Spec.valid_item_child, Article.parse_child, Article.parse_dt.
  intros Hv [Hs Hd].
  destruct (String.eqb (tag el) "pubDate").
  { destruct (text el) as [s|]; [destruct (Py.nonempty s); simpl in Hv|].
    - destruct (strptime_dbY (locale w) (Article.date_tokens s)); [|discriminate].
      eexists; split; [reflexivity|]. split; [exact Hs|]. simpl. congruence.
    - eexists; split; [reflexivity|]. split; [exact Hs|]. simpl. congruence.
    - eexists; split; [reflexivity|]. split; [exact Hs|]. simpl. congruence. }
  destruct (String.eqb (tag el) "description").
  { destruct (text el); eexists; (split; [reflexivity|]); split; assumption. }
  apply orb_true_iff in Hv as [Hv|Hv].
  - assert (Hh : Article.hasattr w (tag el) = true).
    { unfold Article.hasattr. destruct (mem_title_link _ Hv) as [-> | ->]; reflexivity. }
    rewrite Hh.
    destruct (mem_title_link _ Hv) as [-> | ->];
      (eexists; split; [reflexivity|]); split; assumption.
  - apply negb_true_iff in Hv. rewrite Hv.
    eexists; split; [reflexivity|]. split; assumption.
Qed.

Lemma valid_item_parses item :
  Spec.valid_item w item = true ->
  exists a, Article.parse w item = Ok a /\ plain_article a.
Proof.
  unfold Spec.valid_item, Article.parse. intros Hv.
  assert (Hnew : plain_article Article.new) by (split; [reflexivity|discriminate]).
  revert Hv Hnew. generalize Article.new.
  induction (children item) as [|el els IH]; intros a Hv Ha.
  - exists a. split; [reflexivity|exact Ha].
  - simpl in Hv. apply andb_true_iff in Hv as [Hel Hels].
    destruct (valid_item_child_step a el Hel Ha) as [a1 [E Ha1]].
    simpl. rewrite E. exact (IH a1 Hels Ha1).
Qed.

Lemma plain_article_formats lc a :
  plain_article a ->
  exists frag, Article.format lc a = Ok frag /\ Article.call_format lc a = Ok frag.
Proof.
  intros [Hs Hd]. unfold Article.call_format, Article.format, Article.shadowed.
  rewrite Hs. simpl.
  destruct (Article.date a) as [|d|s] eqn:E.
  - eexists; split; reflexivity.
  - eexists; split; reflexivity.
  - destruct (Hd s). reflexivity.
Qed.

Lemma valid_channel_child_step feed l el :
  Spec.valid_channel_child w el = true -> plain_feed feed l ->
  exists feed' arts,
    Feed.parse_child w feed el = Ok feed' /\
    plain_feed feed' (l ++ arts) /\
    Forall2 (fun it a => Article.parse w it = Ok a)
      (List.filter (fun e => String.eqb (tag e) "item") [el]) arts.
Proof.
  unfold Spec.valid_channel_child, Feed.parse_child.
  intros Hv (Hs & Ha & Hl). simpl.
  destruct (String.eqb (tag el) "item").
  - destruct (valid_item_parses el Hv) as [a [E Hpa]].
    rewrite Ha, E. exists (Feed.set_articles feed (Feed.Articles (l ++ [a]))), [a].
    split; [reflexivity|]. split.
    + split; [exact Hs|]. split; [reflexivity|].
      apply Forall_app. split; [exact Hl|constructor; [exact Hpa|constructor]].
    + constructor; [exact E|constructor].
  - assert (Hl' : plain_feed feed (l ++ [])).
    { rewrite app_nil_r. split; [exact Hs|split; assumption]. }
    apply orb_true_iff in Hv as [Hv|Hv].
    + assert (Hh : Feed.hasattr w (tag el) = true).
      { unfold Feed.hasattr. destruct (mem_title_link _ Hv) as [-> | ->]; reflexivity. }
      rewrite Hh. rewrite app_nil_r in Hl'.
      destruct (mem_title_link _ Hv) as [-> | ->];
        (eexists _, []; split; [reflexivity|]); (split; [|constructor]);
        rewrite app_nil_r; (split; [exact Hs|split; assumption]).
    + apply negb_true_iff in Hv. rewrite Hv.
      exists feed, []. split; [reflexivity|]. split; [exact Hl'|constructor].
Qed.

Lemma filter_cons_app {A} (p : A -> bool) x l :
  List.filter p (x :: l) = List.filter p [x] ++ List.filter p l.
Proof. simpl. destruct (p x); reflexivity. Qed.

Lemma valid_channel_walk els :
  forallb (Spec.valid_channel_child w) els = true ->
  forall feed l, plain_feed feed l ->
  exists feed' arts,
    foldM (Feed.parse_child w) feed els = Ok feed' /\
    plain_feed feed' (l ++ arts) /\
    Forall2 (fun it a => Article.parse w it = Ok a)
      (List.filter (fun e => String.eqb (tag e) "item") els) arts.
Proof.
  induction els as [|el els IH]; intros Hv feed l Hf.
  - exists feed, []. rewrite app_nil_r. split; [reflexivity|]. split; [exact Hf|constructor].
  - simpl in Hv. apply andb_true_iff in Hv as [Hel Hels].
    destruct (valid_channel_child_step feed l el Hel Hf) as (f1 & a1 & E1 & Hf1 & H1).
    destruct (IH Hels f1 (l ++ a1) Hf1) as (f2 & a2 & E2 & Hf2 & H2).
    exists f2, (a1 ++ a2). cbn [foldM]. rewrite E1. split; [exact E2|].
    split; [rewrite app_assoc; exact Hf2|].
    rewrite filter_cons_app. apply Forall2_app; assumption.
Qed.

(** [Feed.parse], one case after the other. *)
Lemma Feed_parse_unfold url st :
  Feed.parse w url st
  = match http_get w url with
    | None => (Raise RequestException, st)
    | Some resp =>
        if ok resp then
          match xml_fromstring w (body resp) with
          | None => (Raise ParseError, st)
          | Some data =>
              match children data with
              | [] => (Raise IndexError, st)
              | channel :: _ =>
                  match foldM (Feed.parse_child w) Feed.new (children channel) with
                  | Ok feed =>
                      (Ok feed,
                       {| fs := fs st;
                          stdout := stdout st ++ ["Fetched " +:+ Py.str (Feed.title feed)] |})
                  | Raise e => (Raise e, st)
                  end
              end
          end
        else (Raise (RuntimeError ("Failed to fetch: " +:+ url)), st)
    end.
Proof.
  unfold Feed.parse, mbind, M_bind, lift, raise, Feed.first_child, from_option.
  destruct (http_get w url) as [resp|]; [|reflexivity].
  destruct (ok resp); [|reflexivity]. simpl.
  destruct (xml_fromstring w (body resp)) as [data|]; [|reflexivity].
  destruct (children data) as [|channel rest]; [reflexivity|]. simpl.
  destruct (foldM (Feed.parse_child w) Feed.new (children channel)); reflexivity.
Qed.

Lemma Feed_parse_keeps_fs url st r st' :
  Feed.parse w url st = (r, st') -> fs st' = fs st.
Proof.
  rewrite Feed_parse_unfold. intros H.
  repeat case_match; simplify_eq; reflexivity.
Qed.

End Channel.

(** C2: a valid feed document gives one article for each item of its
    channel, in the order of the items. *)
Theorem parse_keeps_items (w : World) (url : string) (resp : Response)
    (data channel : Element) (rest : list Element) (st : State) :
  http_get w url = Some resp -> ok resp = true ->
  xml_fromstring w (body resp) = Some data ->
  children data = channel :: rest ->
  Spec.valid_channel w channel = true ->
  exists feed arts st',
    Feed.parse w url st = (Ok feed, st') /\
    Feed.articles feed = Feed.Articles arts /\
    length arts = length (Spec.items channel) /\
    Forall2 (fun item a => Article.parse w item = Ok a) (Spec.items channel) arts.
Proof.
  intros Hget Hok Hxml Hch Hv.
  assert (Hnew : plain_feed Feed.new []).
  { split; [reflexivity|]. split; [reflexivity|constructor]. }
  destruct (valid_channel_walk w _ Hv Feed.new [] Hnew)
    as (feed & arts & E & (_ & Ha & _) & HF).
  exists feed, arts. eexists.
  rewrite Feed_parse_unfold, Hget, Hok, Hxml, Hch, E.
  split; [reflexivity|]. split; [exact Ha|].
  split; [symmetry; exact (Forall2_length _ _ _ HF)|exact HF].
Qed.

Lemma parse_keeps_items_witness :
  exists feed arts st',
    Feed.parse Demo.world "http://x/feed" Demo.start = (Ok feed, st') /\
    Feed.articles feed = Feed.Articles arts /\
    length arts = 1%nat /\
    Forall2 (fun item a => Article.parse Demo.world item = Ok a)
      [Demo.hello_item] arts.
Proof.
  exact (parse_keeps_items Demo.world "http://x/feed"
           (mkResponse 200 Demo.example_xml) Demo.example_doc
           (mkElement "channel" None
              [Demo.el "title" "Example Feed"; Demo.el "link" "http://x/";
               Demo.hello_item])
           [] Demo.start eq_refl eq_refl eq_refl eq_refl eq_refl).
Defined.

(** ** Children of the channel that are no items *)

Lemma title_tag_sets_title (w : World) (feed : Feed.t) (v : option string)
    (cs : list Element) :
  Feed.parse_child w feed (mkElement "title" v cs)
  = Ok {| Feed.title := v; Feed.link := Feed.link feed;
          Feed.articles := Feed.articles feed; Feed.shadow := Feed.shadow feed |}.
Proof. reflexivity. Qed.

Lemma link_tag_sets_link (w : World) (feed : Feed.t) (v : option string)
    (cs : list Element) :
  Feed.parse_child w feed (mkElement "link" v cs)
  = Ok {| Feed.title := Feed.title feed; Feed.link := v;
          Feed.articles := Feed.articles feed; Feed.shadow := Feed.shadow feed |}.
Proof. reflexivity. Qed.

Lemma unknown_tag_ignored (w : World) (feed : Feed.t) (el : Element) :
  tag el <> "item" -> Feed.hasattr w (tag el) = false ->
  Feed.parse_child w feed el = Ok feed.
Proof.
  intros Hi Hh. unfold Feed.parse_child. rewrite Hh.
  destruct (String.eqb_spec (tag el) "item"); [contradiction|reflexivity].
Qed.

(** C8, where the code departs from it: a child of the channel tagged
    [articles] is not ignored; its text takes the place of the list of
    articles, whatever the list held. *)
Theorem articles_tag_replaces_list (w : World) (feed : Feed.t)
    (v : option string) (cs : list Element) :
  Feed.parse_child w feed (mkElement "articles" v cs)
  = Ok (Feed.set_articles feed (Feed.ArticlesText v))
  /\ ~ Spec.other_tags_ignored w Feed.new (mkElement "articles" (Some "x") [])
  /\ fst (Feed.parse Demo.world "http://x/clobber" Demo.start)
     = Ok {| Feed.title := Some "Clobber"; Feed.link := Some EmptyString;
             Feed.articles := Feed.ArticlesText (Some "x"); Feed.shadow := [] |}.
Proof.
  split; [reflexivity|]. split.
  - unfold Spec.other_tags_ignored. simpl. intros H.
    assert (E : Feed.parse_child w Feed.new (mkElement "articles" (Some "x") [])
                = Ok Feed.new) by (apply H; discriminate).
    discriminate E.
  - vm_compute. reflexivity.
Qed.

(** ** Loops that print *)

Section PrintingLoops.
Context {A B : Type} (f : A -> M B).

Lemma mapM_M_cons x l st :
  mapM f (x :: l) st
  = match f x st with
    | (Ok y, st1) =>
        match mapM f l st1 with
        | (Ok k, st2) => (Ok (y :: k), st2)
        | (Raise e, st2) => (Raise e, st2)
        end
    | (Raise e, st1) => (Raise e, st1)
    end.
Proof.
  change (mapM f (x :: l) st)
    with (M_bind _ _ (fun y => M_bind _ _ (fun k => M_ret _ (y :: k)) (mapM f l)) (f x) st).
  unfold M_bind, M_ret.
  destruct (f x st) as [[y|e] st1]; [|reflexivity].
  destruct (mapM f l st1) as [[k|e] st2]; reflexivity.
Qed.

Lemma mapM_keeps_fs l :
  (forall x, keeps_fs (f x)) -> keeps_fs (mapM f l).
Proof.
  intros Hf. induction l as [|x l IH]; intros st r st' H.
  - change (mapM f [] st) with (Ok (@nil B), st) in H. congruence.
  - rewrite mapM_M_cons in H.
    destruct (f x st) as [[y|e] st1] eqn:E1.
    + destruct (mapM f l st1) as [[k|e] st2] eqn:E2;
        injection H as _ <-;
        rewrite (IH _ _ _ E2); exact (Hf _ _ _ _ E1).
    + injection H as _ <-. exact (Hf _ _ _ _ E1).
Qed.

Lemma mapM_raises l x :
  In x l -> always_raises (f x) -> always_raises (mapM f l).
Proof.
  intros Hin Hx. induction l as [|y l IH]; [destruct Hin|].
  intros st. rewrite mapM_M_cons.
  destruct (f y st) as [[b|e] st1] eqn:E1; [|eauto].
  destruct Hin as [->|Hin].
  - destruct (Hx st) as (e & st' & E). congruence.
  - destruct (IH Hin st1) as (e & st2 & ->). eauto.
Qed.

Lemma mapM_M_Forall2 (R : A -> B -> Prop) l :
  Forall (fun x => forall st, exists y st', f x st = (Ok y, st') /\ R x y) l ->
  forall st, exists ys st', mapM f l st = (Ok ys, st') /\ Forall2 R l ys.
Proof.
  induction 1 as [|x l Hx _ IH]; intros st.
  - exists [], st. split; [reflexivity|constructor].
  - destruct (Hx st) as (y & st1 & E1 & HR).
    destruct (IH st1) as (ys & st2 & E2 & HF).
    exists (y :: ys), st2. rewrite mapM_M_cons, E1, E2.
    split; [reflexivity|constructor; assumption].
Qed.

End PrintingLoops.

(** ** The run *)

Section Run.
Variable w : World.

Lemma render_feed_unfold url st :
  render_feed w url st
  = match Feed.parse w url st with
    | (Ok feed, st') => (Feed.call_format (locale w) feed, st')
    | (Raise e, st') => (Raise e, st')
    end.
Proof. reflexivity. Qed.

Lemma render_feed_keeps_fs url : keeps_fs (render_feed w url).
Proof.
  intros st r st' H. rewrite render_feed_unfold in H.
  destruct (Feed.parse w url st) as [[feed|e] st1] eqn:E;
    injection H as _ <-; exact (Feed_parse_keeps_fs w _ _ _ _ E).
Qed.

Lemma render_category_unfold entry st :
  render_category w entry st
  = match mapM (render_feed w) (snd entry) st with
    | (Ok feeds, st') =>
        (Ok (CATEGORY_FMT (fst entry) (Py.join Py.newline feeds)), st')
    | (Raise e, st') => (Raise e, st')
    end.
Proof.
  unfold render_category, mbind, M_bind.
  destruct (mapM (render_feed w) (snd entry) st) as [[?|?] ?]; reflexivity.
Qed.

Lemma render_category_keeps_fs entry : keeps_fs (render_category w entry).
Proof.
  intros st r st' H. rewrite render_category_unfold in H.
  destruct (mapM (render_feed w) (snd entry) st) as [[feeds|e] st1] eqn:E;
    injection H as _ <-;
    exact (mapM_keeps_fs (render_feed w) _ render_feed_keeps_fs _ _ _ E).
Qed.

Lemma render_category_raises entry url :
  In url (snd entry) -> always_raises (render_feed w url) ->
  always_raises (render_category w entry).
Proof.
  intros Hin Hr st. rewrite render_category_unfold.
  destruct (mapM_raises (render_feed w) _ _ Hin Hr st) as (e & st' & ->). eauto.
Qed.

Lemma main_unfold args st :
  main w args st
  = if is_dir st (output args) then
      match fs st !! config args with
      | Some (File bytes) =>
          match toml_load w bytes with
          | Some cfg =>
              match mapM (render_category w) cfg st with
              | (Ok categories, st1) =>
                  match write_text (output args ++ ["index.html"])
                          (HTML_FMT (Py.join Py.newline categories)) st1 with
                  | (Ok _, st2) =>
                      if bool_decide (output args = CODE_DIR w) then (Ok tt, st2)
                      else shutil_copy (CODE_DIR w ++ ["style.css"])
                             (output args ++ ["style.css"]) st2
                  | (Raise e, st2) => (Raise e, st2)
                  end
              | (Raise e, st1) => (Raise e, st1)
              end
          | None => (Raise TOMLDecodeError, st)
          end
      | _ => (Raise OSError, st)
      end
    else (Raise AssertionError, st).
Proof.
  unfold main, mbind, M_bind, read_bytes, lift, from_option.
  destruct (is_dir st (output args)); [|reflexivity].
  destruct (fs st !! config args) as [[|bytes]|]; try reflexivity.
  destruct (toml_load w bytes) as [cfg|]; [|reflexivity].
  destruct (mapM (render_category w) cfg st) as [[categories|e] st1]; [|reflexivity].
  destruct (write_text _ _ st1) as [[[]|e] st2]; [|reflexivity].
  destruct (bool_decide (output args = CODE_DIR w)); reflexivity.
Qed.

(** A configured URL whose rendering raises stops the run before anything
    is written. *)
Lemma main_aborts args st cfg url :
  Spec.loads w args st cfg -> Spec.configured cfg url ->
  always_raises (render_feed w url) ->
  Spec.aborts w args st.
Proof.
  intros (bytes & Hf & Ht) (entry & Hin & Hurl) Hr. unfold Spec.aborts.
  rewrite main_unfold, Hf, Ht.
  destruct (is_dir st (output args)); [|eauto].
  pose proof (mapM_raises (render_category w) cfg entry Hin
                (render_category_raises entry url Hurl Hr) st) as (e & st1 & E).
  rewrite E. exists e, st1. split; [reflexivity|].
  exact (mapM_keeps_fs (render_category w) _ render_category_keeps_fs _ _ _ E).
Qed.

Lemma failed_fetch_raises url resp st :
  http_get w url = Some resp -> 400 <= status_code resp < 600 ->
  Feed.parse w url st = (Raise (RuntimeError ("Failed to fetch: " +:+ url)), st).
Proof.
  intros Hget Hs. rewrite Feed_parse_unfold, Hget.
  assert (Hok : ok resp = false).
  { unfold ok. apply negb_false_iff, andb_true_iff. split; lia. }
  rewrite Hok. reflexivity.
Qed.

End Run.

(** C1, as the code has it: a configured URL that answers with a status
    from 400 to 599 makes [Feed.parse] raise, and the run ends there, with
    the file system as it was. *)
Theorem fetch_failure_aborts_run (w : World) (args : Args) (st : State)
    (cfg : Config) (url : string) (resp : Response) :
  Spec.loads w args st cfg -> Spec.configured cfg url ->
  http_get w url = Some resp -> 400 <= status_code resp < 600 ->
  (forall s, Feed.parse w url s
             = (Raise (RuntimeError ("Failed to fetch: " +:+ url)), s))
  /\ exists e st', main w args st = (Raise e, st') /\ fs st' = fs st.
Proof.
  intros Hl Hc Hget Hs.
  split; [intros s; exact (failed_fetch_raises w url resp s Hget Hs)|].
  apply (main_aborts w args st cfg url Hl Hc).
  intros s. rewrite render_feed_unfold, (failed_fetch_raises w url resp s Hget Hs).
  eauto.
Qed.

Lemma fetch_failure_aborts_run_witness :
  (forall s, Feed.parse Demo.world "http://x/down" s
             = (Raise (RuntimeError "Failed to fetch: http://x/down"), s))
  /\ exists e st',
       main Demo.world (Demo.args "down.toml") Demo.start = (Raise e, st')
       /\ fs st' = fs Demo.start.
Proof.
  refine (fetch_failure_aborts_run Demo.world (Demo.args "down.toml") Demo.start
            [("Tech", ["http://x/down"])] "http://x/down"
            (mkResponse 503 "Service Unavailable") _ _ eq_refl _).
  - exists (Demo.toml "Tech" "http://x/down"). split; reflexivity.
  - exists ("Tech", ["http://x/down"]). split; left; reflexivity.
  - simpl. lia.
Defined.

(** C1, as stated, fails on a status that is neither a success nor an
    error for [requests]: with 300 the feed is parsed and the page is
    written. *)
Lemma status_300_is_accepted :
  ~ Spec.fetch_failure_is_fatal Demo.world (Demo.args "many.toml") Demo.start.
Proof.
  intros H.
  destruct (H [("Tech", ["http://x/many"])] "http://x/many"
              (mkResponse 300 Demo.example_xml)) as [_ (e & st' & E & _)].
  - exists (Demo.toml "Tech" "http://x/many"). split; reflexivity.
  - exists ("Tech", ["http://x/many"]). split; left; reflexivity.
  - reflexivity.
  - unfold Spec.non_2xx. simpl. lia.
  - vm_compute in E. discriminate E.
Qed.

(** ** Dates the locale cannot read *)

Section BadDates.
Variable w : World.

Lemma item_raises_in_walk feed item :
  tag item = "item" -> (exists e, Article.parse w item = Raise e) ->
  exists e, Feed.parse_child w feed item = Raise e.
Proof.
  intros Ht [e He]. unfold Feed.parse_child. rewrite Ht, He. simpl.
  destruct (Feed.articles feed); eauto.
Qed.

Lemma bad_item_stops_fetch url resp data channel rest item :
  http_get w url = Some resp ->
  xml_fromstring w (body resp) = Some data ->
  children data = channel :: rest ->
  tag item = "item" -> In item (children channel) ->
  (exists e, Article.parse w item = Raise e) ->
  always_raises (Feed.parse w url).
Proof.
  intros Hget Hxml Hch Ht Hin Hr st.
  rewrite Feed_parse_unfold, Hget, Hxml, Hch.
  destruct (ok resp); [|eauto].
  apply in_split in Hin as (pre & post & ->).
  destruct (foldM_raises (Feed.parse_child w) Feed.new pre item post) as [e ->];
    [|eauto].
  intros feed. apply item_raises_in_walk; assumption.
Qed.

End BadDates.

(** C10: a date the locale cannot read makes the date parser raise; the
    exception leaves [Article.parse], [Feed.parse] and the run, and nothing
    is written. *)
Theorem malformed_date_aborts (w : World) (item el : Element)
    (pre post : list Element) (s : string) :
  children item = pre ++ el :: post ->
  tag el = "pubDate" -> text el = Some s -> s <> EmptyString ->
  strptime_dbY (locale w) (Article.date_tokens s) = None ->
  Article.parse_dt (locale w) s = Raise ValueError
  /\ (forall a0, foldM (Article.parse_child w) Article.new pre = Ok a0 ->
      Article.parse w item = Raise ValueError)
  /\ (exists e, Article.parse w item = Raise e)
  /\ forall url resp data channel rest,
       http_get w url = Some resp ->
       xml_fromstring w (body resp) = Some data ->
       children data = channel :: rest ->
       tag item = "item" -> In item (children channel) ->
       (forall st, exists e st', Feed.parse w url st = (Raise e, st'))
       /\ forall args st cfg,
            Spec.loads w args st cfg -> Spec.configured cfg url ->
            exists e st', main w args st = (Raise e, st') /\ fs st' = fs st.
Proof.
  intros Hc Ht Hx Hs Hd.
  assert (Hel : forall a, Article.parse_child w a el = Raise ValueError)
    by (intros a; exact (parse_child_bad_date w a el s Ht Hx Hs Hd)).
  assert (Hitem : exists e, Article.parse w item = Raise e).
  { unfold Article.parse. rewrite Hc. apply foldM_raises. eauto. }
  split; [unfold Article.parse_dt; rewrite Hd; reflexivity|].
  split.
  { intros a0 Hpre. unfold Article.parse. rewrite Hc, foldM_app, Hpre.
    simpl. rewrite Hel. reflexivity. }
  split; [exact Hitem|].
  intros url resp data channel rest Hget Hxml Hch Hti Hin.
  pose proof (bad_item_stops_fetch w url resp data channel rest item
                Hget Hxml Hch Hti Hin Hitem) as Hfetch.
  split; [exact Hfetch|].
  intros args st cfg Hl Hcfg.
  apply (main_aborts w args st cfg url Hl Hcfg).
  intros st0. rewrite render_feed_unfold.
  destruct (Hfetch st0) as (e & st' & ->). eauto.
Qed.

Lemma malformed_date_aborts_witness :
  Article.parse Demo.world Demo.baddate_item = Raise ValueError
  /\ exists e st',
       main Demo.world (Demo.args "dates.toml") Demo.start = (Raise e, st')
       /\ fs st' = fs Demo.start.
Proof.
  pose proof (malformed_date_aborts Demo.world Demo.baddate_item
                (Demo.el "pubDate" "2024-01-01") [Demo.el "title" "Late"] []
                "2024-01-01" eq_refl eq_refl eq_refl
                ltac:(discriminate) eq_refl) as (_ & Hitem & _ & Hrun).
  split; [exact (Hitem _ eq_refl)|].
  refine (proj2 (Hrun "http://x/dates" (mkResponse 200 Demo.baddate_xml)
                   Demo.baddate_doc
                   (mkElement "channel" None [Demo.el "title" "Dates"; Demo.baddate_item])
                   [] eq_refl eq_refl eq_refl eq_refl _)
            (Demo.args "dates.toml") Demo.start [("Tech", ["http://x/dates"])] _ _).
  - right. left. reflexivity.
  - exists (Demo.toml "Tech" "http://x/dates"). split; reflexivity.
  - exists ("Tech", ["http://x/dates"]). split; left; reflexivity.
Defined.

(** ** The page *)

Section Page.
Variable w : World.

Lemma plain_feed_formats feed arts :
  plain_feed feed arts ->
  exists frags,
    Feed.call_format (locale w) feed
    = Ok (FEED_FMT (Py.str (Feed.link feed)) (Py.str (Feed.title feed))
            (Py.join "<br/>" frags))
    /\ Forall2 (fun a frag => Article.format (locale w) a = Ok frag) arts frags.
Proof.
  intros (Hs & Ha & Hl).
  assert (Hfr : exists frags,
             mapM (Article.call_format (locale w)) arts = Ok frags
             /\ Forall2 (fun a frag => Article.format (locale w) a = Ok frag) arts frags).
  { apply mapM_result_Forall2.
    eapply Forall_impl; [exact Hl|]. intros a Hpa.
    destruct (plain_article_formats (locale w) a Hpa) as (frag & E1 & E2). eauto. }
  destruct Hfr as (frags & Hm & HF). exists frags. split; [|exact HF].
  assert (Hd : forallb (fun a => negb (Article.shadowed a "__dataclass_fields__")) arts = true).
  { apply forallb_forall. intros a Hin.
    rewrite Forall_forall in Hl. destruct (Hl a) as [Hsa _].
    - apply list_elem_of_In. exact Hin.
    - unfold Article.shadowed. rewrite Hsa. reflexivity. }
  unfold Feed.call_format, Feed.format, Feed.asdict_ok, Feed.shadowed,
    Feed.format_articles.
  rewrite Hs, Ha, Hd. simpl. rewrite Hm. reflexivity.
Qed.

Lemma render_feed_ok url :
  Spec.feed_ok w url = true ->
  forall st, exists block st',
    render_feed w url st = (Ok block, st') /\ Spec.feed_block w url block.
Proof.
  unfold Spec.feed_ok. intros H st.
  destruct (http_get w url) as [resp|] eqn:Hget; [|discriminate].
  apply andb_true_iff in H as [Hok H].
  destruct (xml_fromstring w (body resp)) as [data|] eqn:Hxml; [|discriminate].
  destruct (children data) as [|channel rest] eqn:Hch; [discriminate|].
  assert (Hnew : plain_feed Feed.new []).
  { split; [reflexivity|]. split; [reflexivity|constructor]. }
  destruct (valid_channel_walk w _ H Feed.new [] Hnew) as (feed & arts & E & Hpf & HF).
  destruct (plain_feed_formats feed arts Hpf) as (frags & Hfmt & Hfr).
  rewrite render_feed_unfold, Feed_parse_unfold, Hget, Hok, Hxml, Hch, E, Hfmt.
  eexists _, _. split; [reflexivity|].
  exists resp, data, channel, rest, feed, arts, frags.
  repeat split; assumption || reflexivity.
Qed.

Lemma render_category_ok entry :
  Forall (fun url => Spec.feed_ok w url = true) (snd entry) ->
  forall st, exists block st',
    render_category w entry st = (Ok block, st') /\ Spec.category_block w entry block.
Proof.
  intros Hok st.
  destruct (mapM_M_Forall2 (render_feed w) (Spec.feed_block w) (snd entry)) with (st := st)
    as (feeds & st' & E & HF).
  { eapply Forall_impl; [exact Hok|]. intros url Hu. exact (render_feed_ok url Hu). }
  rewrite render_category_unfold, E. eexists _, _. split; [reflexivity|].
  exists feeds. split; [exact HF|reflexivity].
Qed.

Lemma index_is_not_the_stylesheet (out : list string) (more : list string) :
  out ++ "style.css" :: more <> out ++ ["index.html"].
Proof. intros H. apply app_inv_head in H. discriminate H. Qed.

Lemma copy_keeps_index src out st r st' :
  shutil_copy src (out ++ ["style.css"]) st = (r, st') ->
  List.last src EmptyString = "style.css" ->
  fs st' !! (out ++ ["index.html"]) = fs st !! (out ++ ["index.html"]).
Proof.
  unfold shutil_copy, write_text, store. intros H Hlast.
  rewrite Hlast in H.
  repeat case_match; simplify_eq; try reflexivity; simpl;
    apply lookup_insert_ne.
  - rewrite <- app_assoc. apply index_is_not_the_stylesheet.
  - apply index_is_not_the_stylesheet.
Qed.

End Page.

(** ** Parts that occur in order *)

Lemma append_nil_r (a : string) : a +:+ EmptyString = a.
Proof.
  induction a as [|x a IH]; [reflexivity|].
  change (String x (a +:+ EmptyString) = String x a). rewrite IH. reflexivity.
Qed.

Lemma in_order_prefix parts a t : in_order parts t -> in_order parts (a +:+ t).
Proof.
  destruct parts as [|part parts]; [trivial|].
  intros (before & after & -> & H).
  exists (a +:+ before), after. split; [|exact H].
  rewrite append_assoc. reflexivity.
Qed.

Lemma in_order_suffix parts t z : in_order parts t -> in_order parts (t +:+ z).
Proof.
  revert t. induction parts as [|part parts IH]; intros t; [trivial|].
  intros (before & after & -> & H).
  exists before, (after +:+ z). split; [|exact (IH _ H)].
  rewrite !append_assoc. reflexivity.
Qed.

Lemma in_order_join sep parts : in_order parts (Py.join sep parts).
Proof.
  induction parts as [|part parts IH]; [exact I|].
  exists EmptyString. destruct parts as [|part' parts].
  - exists EmptyString. split; [|exact I].
    change (part = part +:+ EmptyString). rewrite append_nil_r. reflexivity.
  - exists (sep +:+ Py.join sep (part' :: parts)).
    split; [reflexivity|]. apply in_order_prefix. exact IH.
Qed.

Lemma in_order_HTML_FMT parts x : in_order parts x -> in_order parts (HTML_FMT x).
Proof.
  intros H. unfold HTML_FMT.
  repeat lazymatch goal with
         | |- in_order _ (x +:+ _) => fail
         | |- in_order _ (_ +:+ _) => apply in_order_prefix
         end.
  apply in_order_suffix. exact H.
Qed.

Lemma in_order_FEED_FMT parts link title x :
  in_order parts x -> in_order parts (FEED_FMT link title x).
Proof.
  intros H. unfold FEED_FMT.
  repeat lazymatch goal with
         | |- in_order _ (x +:+ _) => fail
         | |- in_order _ (_ +:+ _) => apply in_order_prefix
         end.
  apply in_order_suffix. exact H.
Qed.

Lemma in_order_CATEGORY_FMT parts title x :
  in_order parts x -> in_order (title :: parts) (CATEGORY_FMT title x).
Proof.
  intros H. unfold CATEGORY_FMT.
  repeat lazymatch goal with
         | |- in_order _ (title +:+ _) => fail
         | |- in_order _ (_ +:+ _) => apply in_order_prefix
         end.
  exists EmptyString. eexists. split; [reflexivity|].
  repeat lazymatch goal with
         | |- in_order _ (x +:+ _) => fail
         | |- in_order _ (_ +:+ _) => apply in_order_prefix
         end.
  apply in_order_suffix. exact H.
Qed.

Section OrderedPage.
Variable w : World.

Lemma feed_block_is_ordered url block :
  Spec.feed_block w url block -> ordered_feed w url block.
Proof.
  intros (resp & data & channel & rest & feed & arts & frags
          & Hget & Hxml & Hch & _ & Hp & Hf & ->).
  exists resp, data, channel, rest, arts, frags.
  repeat (split; [assumption|]).
  apply in_order_FEED_FMT, in_order_join.
Qed.

Lemma category_block_is_ordered entry block :
  Spec.category_block w entry block -> ordered_category w entry block.
Proof.
  intros (feeds & HF & ->). exists feeds. split.
  - eapply Forall2_impl; [exact HF|]. exact feed_block_is_ordered.
  - apply in_order_CATEGORY_FMT, in_order_join.
Qed.

End OrderedPage.

(** C9, where the code departs from it: the feed whose channel holds an
    [articles] element after its item is fetched and rendered, and the page
    written shows the feed and the text of that element, and the fragment
    of the item nowhere. *)
Theorem clobbered_feed_page_lacks_its_item :
  exists a frag page st',
    Spec.items (mkElement "channel" None
                  [Demo.el "title" "Clobber"; Demo.undated_item; Demo.el "articles" "x"])
    = [Demo.undated_item] /\
    Article.parse clobber_world Demo.undated_item = Ok a /\
    Article.format (locale clobber_world) a = Ok frag /\
    main clobber_world (Demo.args "feeds.toml") Demo.start = (Ok tt, st') /\
    fs st' !! ["www"; "index.html"] = Some (File page) /\
    Py.contains "<h2>Clobber</h2>" page = true /\
    Py.contains ("<ul class=" +:+ q "article-list" +:+ ">" +:+ Py.newline
                 +:+ "        x" +:+ Py.newline +:+ "    </ul>") page = true /\
    Py.contains frag page = false /\
    Py.contains "Plain" page = false.
Proof.
  eexists _, _, _, _.
  split; [reflexivity|].
  split; [vm_compute; reflexivity|].
  split; [vm_compute; reflexivity|].
  split; [vm_compute; reflexivity|].
  split; [vm_compute; reflexivity|].
  repeat split; vm_compute; reflexivity.
Qed.

(* ================================================================== *)
(** * Further properties of the code *)

(** ** The tokens of a date *)

Section Tokens.
Import Py.

Lemma contains_char c a t :
  contains (String c EmptyString) (String a t)
  = Ascii.eqb a c || contains (String c EmptyString) t.
Proof.
  cbn [contains String.prefix].
  destruct (ascii_dec c a) as [->|Hne].
  - rewrite Ascii.eqb_refl. destruct t; reflexivity.
  - destruct (Ascii.eqb_spec a c) as [->|_]; [contradiction|]. reflexivity.
Qed.

Lemma split_token sep t :
  contains (String sep EmptyString) t = false ->
  split sep t = [t].
Proof.
  induction t as [|a t IH]; [reflexivity|].
  rewrite contains_char. intros H. apply orb_false_iff in H as [Ha Ht].
  cbn [split]. rewrite Ha, (IH Ht). reflexivity.
Qed.

Lemma split_token_sep sep t r :
  contains (String sep EmptyString) t = false ->
  split sep (t +:+ String sep r) = t :: split sep r.
Proof.
  induction t as [|a t IH].
  - intros _. change (EmptyString +:+ String sep r) with (String sep r).
    cbn [split]. rewrite Ascii.eqb_refl. reflexivity.
  - rewrite contains_char. intros H. apply orb_false_iff in H as [Ha Ht].
    change (String a t +:+ String sep r) with (String a (t +:+ String sep r)).
    cbn [split]. rewrite Ha, (IH Ht). reflexivity.
Qed.

Lemma join_cons2 c t r rs :
  join (String c EmptyString) (t :: r :: rs)
  = t +:+ String c (join (String c EmptyString) (r :: rs)).
Proof. reflexivity. Qed.

Lemma split_join_first t rest :
  contains " " t = false ->
  exists more, split " " (join " " (t :: rest)) = t :: more.
Proof.
  intros Ht. destruct rest as [|r rs].
  - exists []. exact (split_token _ _ Ht).
  - rewrite join_cons2. eexists. exact (split_token_sep _ _ _ Ht).
Qed.

End Tokens.

(** X1: of a date text only the second, third and fourth token count: the
    first token (the weekday) is never looked at, and neither is anything
    after the fourth (time and zone). *)
Theorem parse_dt_reads_three_tokens (lc : Locale) (t0 t1 t2 t3 : string)
    (rest : list string) :
  Py.contains " " t0 = false -> Py.contains " " t1 = false ->
  Py.contains " " t2 = false -> Py.contains " " t3 = false ->
  Article.parse_dt lc (Py.join " " (t0 :: t1 :: t2 :: t3 :: rest))
  = from_option ValueError (strptime_dbY lc (t1 +:+ " " +:+ t2 +:+ " " +:+ t3)).
Proof.
  intros H0 H1 H2 H3.
  assert (E : Article.date_tokens (Py.join " " (t0 :: t1 :: t2 :: t3 :: rest))
              = t1 +:+ " " +:+ t2 +:+ " " +:+ t3).
  { unfold Article.date_tokens.
    rewrite !join_cons2, !split_token_sep by assumption.
    destruct (split_join_first t3 rest H3) as [more ->]. reflexivity. }
  unfold Article.parse_dt. rewrite E.
  destruct (strptime_dbY lc _); reflexivity.
Qed.

Lemma parse_dt_reads_three_tokens_witness :
  Article.parse_dt CLocale.locale
    (Py.join " " ["Someday,"; "04"; "Oct"; "2023"; "not a time"; "nowhere"])
  = from_option ValueError (strptime_dbY CLocale.locale ("04" +:+ " " +:+ "Oct" +:+ " " +:+ "2023")).
Proof.
  exact (parse_dt_reads_three_tokens CLocale.locale "Someday," "04" "Oct" "2023"
           ["not a time"; "nowhere"] eq_refl eq_refl eq_refl eq_refl).
Defined.

(** X2: in the C locale a date text without a space is never read: no
    token is left for the day, the month and the year, whatever the text
    (an ISO date, for one). *)
Theorem parse_dt_needs_spaces (s : string) :
  Py.contains " " s = false ->
  Article.parse_dt CLocale.locale s = Raise ValueError.
Proof.
  intros H. unfold Article.parse_dt, Article.date_tokens.
  rewrite (split_token _ _ H). reflexivity.
Qed.

Lemma parse_dt_needs_spaces_witness :
  Article.parse_dt CLocale.locale "2024-01-01T00:00:00Z" = Raise ValueError.
Proof. exact (parse_dt_needs_spaces "2024-01-01T00:00:00Z" eq_refl). Defined.

(** ** The marker and the cleaned text *)

Section Marker.
Import Py.

Lemma prefix_before_sep c needle l t :
  contains (String c EmptyString) needle = false ->
  String.prefix needle (l +:+ String c t) = String.prefix needle l.
Proof.
  revert needle. induction l as [|b l IH]; intros needle Hn.
  - change (EmptyString +:+ String c t) with (String c t).
    destruct needle as [|a n]; [reflexivity|].
    rewrite contains_char in Hn. apply orb_false_iff in Hn as [Ha _].
    cbn [String.prefix]. destruct (ascii_dec a c) as [->|_]; [|reflexivity].
    rewrite Ascii.eqb_refl in Ha. discriminate.
  - change (String b l +:+ String c t) with (String b (l +:+ String c t)).
    destruct needle as [|a n]; [reflexivity|].
    rewrite contains_char in Hn. apply orb_false_iff in Hn as [_ Hn].
    cbn [String.prefix]. destruct (ascii_dec a b); [apply IH, Hn|reflexivity].
Qed.

(** A needle without the separator lies on one side of it. *)
Lemma contains_before_sep c needle l t :
  needle <> EmptyString ->
  contains (String c EmptyString) needle = false ->
  contains needle (l +:+ String c t) = contains needle l || contains needle t.
Proof.
  intros Hne Hn. induction l as [|b l IH].
  - change (EmptyString +:+ String c t) with (String c t).
    assert (P : String.prefix needle (String c t) = String.prefix needle EmptyString)
      by exact (prefix_before_sep c needle EmptyString t Hn).
    cbn [contains]. rewrite P.
    destruct needle; [congruence|reflexivity].
  - change (String b l +:+ String c t) with (String b (l +:+ String c t)).
    cbn [contains]. rewrite IH.
    change (String b (l +:+ String c t)) with (String b l +:+ String c t).
    rewrite (prefix_before_sep c needle (String b l) t Hn).
    rewrite orb_assoc. reflexivity.
Qed.

Lemma contains_join needle ls :
  needle <> EmptyString ->
  contains newline needle = false ->
  Forall (fun l => contains needle l = false) ls ->
  contains needle (join newline ls) = false.
Proof.
  intros Hne Hn. induction 1 as [|l ls Hl Hls IH].
  - destruct needle; [congruence|reflexivity].
  - destruct ls as [|l' ls]; [exact Hl|].
    unfold newline. rewrite join_cons2, (contains_before_sep _ _ _ _ Hne Hn), Hl.
    exact IH.
Qed.

Lemma kept_lines_are_clean s :
  Forall (fun l => nonempty l = true /\ nobreak l = true
                   /\ contains Article.bad l = false)
    (List.filter Article.keep (splitlines s)).
Proof.
  pose proof (splitlines_nobreak s) as Hnb.
  induction (splitlines s) as [|l ls IH]; [constructor|].
  inversion Hnb as [|? ? Hl Hls]; subst. simpl.
  destruct (Article.keep l) eqn:E; [|exact (IH Hls)].
  constructor; [|exact (IH Hls)].
  unfold Article.keep in E. apply andb_true_iff in E as [E1 E2].
  apply negb_true_iff in E2. auto.
Qed.

Lemma filter_keep_clean ls :
  Forall (fun l => nonempty l = true /\ nobreak l = true
                   /\ contains Article.bad l = false) ls ->
  List.filter Article.keep ls = ls.
Proof.
  induction 1 as [|l ls (Hne & _ & Hb) _ IH]; [reflexivity|].
  simpl. unfold Article.keep at 1. rewrite Hne, Hb. simpl. rewrite IH. reflexivity.
Qed.

End Marker.

(** X3: the cleaned description contains the marker nowhere, not within a
    line and not across two lines. *)
Theorem parse_description_has_no_marker (s : string) :
  Py.contains Article.bad (Article.parse_description s) = false.
Proof.
  unfold Article.parse_description.
  apply contains_join; [discriminate|reflexivity|].
  eapply Forall_impl; [exact (kept_lines_are_clean s)|].
  intros l (_ & _ & H). exact H.
Qed.

(** X4: the texts cleaning leaves as they are are the joins, with LF, of
    lines that are not empty, hold no line boundary and do not contain the
    marker. *)
Theorem parse_description_fixed_points (s : string) :
  Article.parse_description s = s
  <-> exists ls,
        s = Py.join Py.newline ls /\
        Forall (fun l => Py.nonempty l = true /\ Py.nobreak l = true
                         /\ Py.contains Article.bad l = false) ls.
Proof.
  split.
  - intros H. exists (List.filter Article.keep (Py.splitlines s)).
    split; [symmetry; exact H|exact (kept_lines_are_clean s)].
  - intros (ls & -> & Hls). unfold Article.parse_description.
    rewrite splitlines_join.
    + rewrite (filter_keep_clean ls Hls). reflexivity.
    + eapply Forall_impl; [exact Hls|]. intros l (H1 & H2 & _). auto.
Qed.

(** ** When an item cannot be parsed *)

Section FatalChildren.
Variable w : World.

Lemma guarded_names name e :
  guarded name = Some e ->
  name = "__class__" \/ name = "__dict__" \/ name = "__weakref__".
Proof.
  unfold guarded, mem. simpl. rewrite orb_false_r.
  destruct (String.eqb_spec name "__class__") as [->|_]; [auto|].
  destruct (String.eqb_spec name "__dict__") as [->|_]; [auto|]. simpl.
  destruct (String.eqb_spec name "__weakref__") as [->|_]; [auto|discriminate].
Qed.

Lemma setattr_guarded a name v e :
  guarded name = Some e -> Article.setattr a name v = Raise e.
Proof.
  intros H. destruct (guarded_names _ _ H) as [-> | [-> | ->]];
    vm_compute in H; injection H as <-; reflexivity.
Qed.

Lemma setattr_free a name v :
  guarded name = None -> exists a', Article.setattr a name v = Ok a'.
Proof.
  intros H. unfold Article.setattr. rewrite H.
  repeat case_match; eauto.
Qed.

Lemma parse_child_fatal a el :
  fatal_item_child w el = true -> exists e, Article.parse_child w a el = Raise e.
Proof.
  unfold fatal_item_child, Article.parse_child, Article.parse_dt.
  destruct (String.eqb (tag el) "pubDate").
  { destruct (text el) as [s|]; [|discriminate].
    intros H. apply andb_true_iff in H as [-> H].
    destruct (strptime_dbY (locale w) (Article.date_tokens s)); [discriminate|].
    simpl. eauto. }
  destruct (String.eqb (tag el) "description"); [discriminate|].
  intros H. apply andb_true_iff in H as [-> H].
  destruct (guarded (tag el)) as [e|] eqn:E; [|discriminate].
  rewrite (setattr_guarded a _ (text el) e E). eauto.
Qed.

Lemma parse_child_harmless a el :
  fatal_item_child w el = false -> exists a', Article.parse_child w a el = Ok a'.
Proof.
  unfold fatal_item_child, Article.parse_child, Article.parse_dt.
  destruct (String.eqb (tag el) "pubDate").
  { destruct (text el) as [s|]; [|eauto].
    destruct (Py.nonempty s); [|eauto]. simpl.
    destruct (strptime_dbY (locale w) (Article.date_tokens s)); [|discriminate].
    simpl. eauto. }
  destruct (String.eqb (tag el) "description").
  { destruct (text el); eauto. }
  destruct (Article.hasattr w (tag el)); [|eauto]. simpl.
  destruct (guarded (tag el)) eqn:E; [discriminate|].
  intros _. exact (setattr_free a _ _ E).
Qed.

Lemma walk_raises_iff els :
  forall a,
    (exists e, foldM (Article.parse_child w) a els = Raise e)
    <-> existsb (fatal_item_child w) els = true.
Proof.
  induction els as [|el els IH]; intros a.
  - simpl. split; [intros [e H]; discriminate|discriminate].
  - cbn [foldM existsb].
    destruct (fatal_item_child w el) eqn:F.
    + destruct (parse_child_fatal a el F) as [e ->].
      split; [reflexivity|eauto].
    + destruct (parse_child_harmless a el F) as [a' ->]. apply IH.
Qed.

End FatalChildren.

(** X5: [Article.parse] raises exactly on the items that hold a date the
    locale cannot read or a child tagged [__class__], [__dict__] or
    [__weakref__]; every other item gives an article. *)
Theorem parse_raises_iff_fatal_child (w : World) (item : Element) :
  (exists e, Article.parse w item = Raise e)
  <-> existsb (fatal_item_child w) (children item) = true.
Proof. exact (walk_raises_iff w (children item) Article.new). Qed.

(** ** Elements that come twice, and elements named like attributes *)

Section Overrides.
Variable w : World.

Lemma feed_setattr_keeps_title f name v f' :
  name <> "title" -> Feed.setattr f name v = Ok f' ->
  Feed.title f' = Feed.title f.
Proof.
  intros Hn. unfold Feed.setattr.
  destruct (String.eqb_spec name "title") as [?|_]; [contradiction|].
  repeat case_match; intros ?; simplify_eq; reflexivity.
Qed.

Lemma feed_child_keeps_title f el f' :
  tag el <> "title" -> Feed.parse_child w f el = Ok f' ->
  Feed.title f' = Feed.title f.
Proof.
  intros Hn. unfold Feed.parse_child.
  destruct (String.eqb (tag el) "item").
  - destruct (Feed.articles f); [|discriminate].
    destruct (Article.parse w el); simpl; intros ?; simplify_eq; reflexivity.
  - destruct (Feed.hasattr w (tag el)).
    + apply feed_setattr_keeps_title, Hn.
    + intros ?; simplify_eq; reflexivity.
Qed.

Lemma feed_walk_keeps_title f els f' :
  Forall (fun el => tag el <> "title") els ->
  foldM (Feed.parse_child w) f els = Ok f' ->
  Feed.title f' = Feed.title f.
Proof.
  intros Hels H.
  refine (foldM_invariant (Feed.parse_child w)
            (fun x => Feed.title x = Feed.title f)
            (fun el => tag el <> "title") els _ Hels f f' eq_refl H).
  intros f1 el f2 Hel Hf1 Hstep.
  rewrite (feed_child_keeps_title _ _ _ Hel Hstep). exact Hf1.
Qed.

Lemma article_setattr_keeps_date a name v a' :
  name <> "date" -> Article.setattr a name v = Ok a' ->
  Article.date a' = Article.date a.
Proof.
  intros Hn. unfold Article.setattr.
  destruct (String.eqb_spec name "date") as [?|_]; [contradiction|].
  repeat case_match; intros ?; simplify_eq; reflexivity.
Qed.

Lemma article_child_keeps_date a el a' :
  tag el <> "pubDate" -> tag el <> "date" ->
  Article.parse_child w a el = Ok a' ->
  Article.date a' = Article.date a.
Proof.
  intros Hp Hd. unfold Article.parse_child.
  destruct (String.eqb_spec (tag el) "pubDate") as [?|_]; [contradiction|].
  destruct (String.eqb (tag el) "description").
  - destruct (text el); intros ?; simplify_eq; reflexivity.
  - destruct (Article.hasattr w (tag el)).
    + apply article_setattr_keeps_date, Hd.
    + intros ?; simplify_eq; reflexivity.
Qed.

Lemma article_walk_keeps_date a els a' :
  Forall (fun el => tag el <> "pubDate" /\ tag el <> "date") els ->
  foldM (Article.parse_child w) a els = Ok a' ->
  Article.date a' = Article.date a.
Proof.
  intros Hels H.
  refine (foldM_invariant (Article.parse_child w)
            (fun x => Article.date x = Article.date a)
            (fun el => tag el <> "pubDate" /\ tag el <> "date") els _ Hels a a' eq_refl H).
  intros a1 el a2 [Hp Hd] Ha1 Hstep.
  rewrite (article_child_keeps_date _ _ _ Hp Hd Hstep). exact Ha1.
Qed.

Lemma articles_tag_stored f x cs :
  exists f', Feed.parse_child w f (mkElement "articles" x cs) = Ok f'
             /\ Feed.articles f' = Feed.ArticlesText x.
Proof. eexists. split; reflexivity. Qed.

(** Once a text stands for the articles, it stays. *)
Lemma articles_text_stays f el f' :
  (exists v, Feed.articles f = Feed.ArticlesText v) ->
  Feed.parse_child w f el = Ok f' ->
  exists v, Feed.articles f' = Feed.ArticlesText v.
Proof.
  intros [v Hv]. unfold Feed.parse_child, Feed.setattr. rewrite Hv.
  repeat case_match; intros ?; simplify_eq; simpl; eauto.
Qed.

Lemma item_after_text_raises f els it post :
  (exists v, Feed.articles f = Feed.ArticlesText v) ->
  tag it = "item" ->
  exists e, foldM (Feed.parse_child w) f (els ++ it :: post) = Raise e.
Proof.
  intros Hf Ht. rewrite foldM_app.
  destruct (foldM (Feed.parse_child w) f els) as [f1|e] eqn:E; [|eauto].
  assert (H1 : exists v, Feed.articles f1 = Feed.ArticlesText v).
  { refine (foldM_invariant (Feed.parse_child w)
              (fun x => exists v, Feed.articles x = Feed.ArticlesText v)
              (fun _ => True) els _ _ f f1 Hf E).
    - intros x el x' _ Hx Hstep. exact (articles_text_stays x el x' Hx Hstep).
    - apply Forall_forall. trivial. }
  destruct H1 as [v Hv]. cbn [foldM]. unfold Feed.parse_child.
  rewrite Ht, Hv. simpl. eauto.
Qed.

End Overrides.

(** X6: of several title elements in a channel the last one gives the
    title of the feed, [None] when it holds no text; without any the title
    is the empty text; and the progress line shows that title. *)
Theorem feed_title_last_wins (w : World) (url : string) (resp : Response)
    (data channel : Element) (rest : list Element) (feed : Feed.t)
    (st st' : State) :
  http_get w url = Some resp ->
  xml_fromstring w (body resp) = Some data ->
  children data = channel :: rest ->
  Feed.parse w url st = (Ok feed, st') ->
  (forall pre el post,
     children channel = pre ++ el :: post -> tag el = "title" ->
     Forall (fun e => tag e <> "title") post ->
     Feed.title feed = text el)
  /\ (Forall (fun e => tag e <> "title") (children channel) ->
      Feed.title feed = Some EmptyString)
  /\ stdout st' = stdout st ++ ["Fetched " +:+ Py.str (Feed.title feed)].
Proof.
  intros Hget Hxml Hch Hp.
  rewrite Feed_parse_unfold, Hget, Hxml, Hch in Hp.
  destruct (ok resp); [|discriminate].
  destruct (foldM (Feed.parse_child w) Feed.new (children channel)) as [f|] eqn:E;
    [|discriminate].
  injection Hp as -> <-. split; [|split; [|reflexivity]].
  - intros pre el post Hc Ht Hpost. rewrite Hc, foldM_app in E.
    destruct (foldM (Feed.parse_child w) Feed.new pre) as [f1|]; [|discriminate].
    cbn [foldM] in E.
    destruct (Feed.parse_child w f1 el) as [f2|] eqn:E2; [|discriminate].
    rewrite (feed_walk_keeps_title w _ _ _ Hpost E).
    destruct el as [t x cs]. simpl in Ht. subst t.
    rewrite title_tag_sets_title in E2. injection E2 as <-. reflexivity.
  - intros Hno. exact (feed_walk_keeps_title w _ _ _ Hno E).
Qed.

Lemma feed_title_last_wins_witness :
  Feed.title (Feed.mk None (Some EmptyString) (Feed.Articles []) []) = None
  /\ stdout (mkState Demo.disk ["Fetched None"])
     = stdout Demo.start ++ ["Fetched " +:+ Py.str None].
Proof.
  assert (H : Feed.parse
                (Probe.world (Demo.rss [Demo.el "title" "Old"; mkElement "title" None []]))
                "http://x/probe" Demo.start
              = (Ok (Feed.mk None (Some EmptyString) (Feed.Articles []) []),
                 mkState Demo.disk ["Fetched None"]))
    by (vm_compute; reflexivity).
  destruct (feed_title_last_wins
              (Probe.world (Demo.rss [Demo.el "title" "Old"; mkElement "title" None []]))
              "http://x/probe" (mkResponse 200 EmptyString)
              (Demo.rss [Demo.el "title" "Old"; mkElement "title" None []])
              (mkElement "channel" None [Demo.el "title" "Old"; mkElement "title" None []])
              [] _ Demo.start _ eq_refl eq_refl eq_refl H) as (H1 & _ & H3).
  split; [|exact H3].
  exact (H1 [Demo.el "title" "Old"] (mkElement "title" None []) []
           eq_refl eq_refl (Forall_nil_2 _)).
Defined.

(** X7: an item whose last date-giving child is a [date] element with text
    is parsed, the text standing for the date, and cannot be rendered:
    [Article.format] raises. *)
Theorem date_element_breaks_format (w : World) (lc : Locale) (item el : Element)
    (pre post : list Element) (s : string) (a : Article.t) :
  Article.parse w item = Ok a ->
  children item = pre ++ el :: post ->
  tag el = "date" -> text el = Some s -> s <> EmptyString ->
  Forall (fun e => tag e <> "pubDate" /\ tag e <> "date") post ->
  Article.date a = Article.DateText s
  /\ (Article.format lc a = Raise TypeError
      \/ Article.format lc a = Raise AttributeError).
Proof.
  intros Hp Hc Ht Hx Hs Hpost.
  assert (Hd : Article.date a = Article.DateText s).
  { unfold Article.parse in Hp. rewrite Hc, foldM_app in Hp.
    destruct (foldM (Article.parse_child w) Article.new pre) as [a1|]; [|discriminate].
    cbn [foldM] in Hp.
    destruct (Article.parse_child w a1 el) as [a2|] eqn:E2; [|discriminate].
    rewrite (article_walk_keeps_date w _ _ _ Hpost Hp).
    destruct el as [t x cs]. simpl in Ht, Hx. subst t x.
    vm_compute in E2. injection E2 as <-. reflexivity. }
  split; [exact Hd|].
  unfold Article.format. rewrite Hd.
  destruct (Article.shadowed a "__dataclass_fields__"); [auto|].
  destruct s; [congruence|auto].
Qed.

Lemma date_element_breaks_format_witness :
  Article.date (Article.mk (Some "Dated") (Some EmptyString) (Some EmptyString)
                  (Article.DateText "2024-01-01") [])
  = Article.DateText "2024-01-01"
  /\ (Article.format CLocale.locale
        (Article.mk (Some "Dated") (Some EmptyString) (Some EmptyString)
           (Article.DateText "2024-01-01") []) = Raise TypeError
      \/ Article.format CLocale.locale
           (Article.mk (Some "Dated") (Some EmptyString) (Some EmptyString)
              (Article.DateText "2024-01-01") []) = Raise AttributeError).
Proof.
  refine (date_element_breaks_format Demo.world CLocale.locale
            (mkElement "item" None [Demo.el "date" "2024-01-01"; Demo.el "title" "Dated"])
            (Demo.el "date" "2024-01-01") [] [Demo.el "title" "Dated"] "2024-01-01"
            _ _ eq_refl eq_refl eq_refl ltac:(discriminate) _).
  - vm_compute. reflexivity.
  - constructor; [split; discriminate|constructor].
Defined.

(** X8: a channel that holds an [articles] element and, after it, an item
    cannot be fetched: the text has taken the place of the list, appending
    to it raises, and the run ends with nothing written. *)
Theorem item_after_articles_aborts (w : World) (url : string) (resp : Response)
    (data channel a it : Element) (rest pre mid post : list Element) :
  http_get w url = Some resp ->
  xml_fromstring w (body resp) = Some data ->
  children data = channel :: rest ->
  children channel = pre ++ a :: mid ++ it :: post ->
  tag a = "articles" -> tag it = "item" ->
  (forall st, exists e st', Feed.parse w url st = (Raise e, st'))
  /\ forall args st cfg,
       Spec.loads w args st cfg -> Spec.configured cfg url ->
       exists e st', main w args st = (Raise e, st') /\ fs st' = fs st.
Proof.
  intros Hget Hxml Hch Hc Ha Hit.
  assert (Hfetch : always_raises (Feed.parse w url)).
  { intros st. rewrite Feed_parse_unfold, Hget, Hxml, Hch.
    destruct (ok resp); [|eauto].
    assert (Hw : exists e, foldM (Feed.parse_child w) Feed.new (children channel) = Raise e).
    { rewrite Hc, foldM_app.
      destruct (foldM (Feed.parse_child w) Feed.new pre) as [f1|e]; [|eauto].
      cbn [foldM]. destruct a as [t x cs]. simpl in Ha. subst t.
      destruct (articles_tag_stored w f1 x cs) as [f2 (-> & Hf2)].
      apply item_after_text_raises; [eauto|exact Hit]. }
    destruct Hw as [e ->]. eauto. }
  split; [exact Hfetch|].
  intros args st cfg Hl Hcfg.
  apply (main_aborts w args st cfg url Hl Hcfg).
  intros st0. rewrite render_feed_unfold.
  destruct (Hfetch st0) as (e & st' & ->). eauto.
Qed.

Lemma item_after_articles_aborts_witness :
  (forall st, exists e st',
     Feed.parse (Probe.world (Demo.rss [Demo.el "articles" "x"; Demo.hello_item]))
       "http://x/probe" st = (Raise e, st'))
  /\ exists e st',
       main (Probe.world (Demo.rss [Demo.el "articles" "x"; Demo.hello_item]))
         (Demo.args "feeds.toml") Demo.start = (Raise e, st')
       /\ fs st' = fs Demo.start.
Proof.
  destruct (item_after_articles_aborts
              (Probe.world (Demo.rss [Demo.el "articles" "x"; Demo.hello_item]))
              "http://x/probe" (mkResponse 200 EmptyString)
              (Demo.rss [Demo.el "articles" "x"; Demo.hello_item])
              (mkElement "channel" None [Demo.el "articles" "x"; Demo.hello_item])
              (Demo.el "articles" "x") Demo.hello_item [] [] [] []
              eq_refl eq_refl eq_refl eq_refl eq_refl eq_refl) as [H1 H2].
  split; [exact H1|].
  apply (H2 (Demo.args "feeds.toml") Demo.start [("News", ["http://x/probe"])]).
  - exists (Demo.toml "Tech" "http://x/feed"). split; reflexivity.
  - exists ("News", ["http://x/probe"]). split; left; reflexivity.
Defined.

(** ** What a run does to the files *)

Section Files.
Variable w : World.

(** The ways a run ends: before the page is written; with the page and no
    copy; with the page and a copy that failed; with the page and the
    stylesheet. *)
Lemma main_outcome args st r st' :
  main w args st = (r, st') ->
  (fs st' = fs st /\ exists e, r = Raise e)
  \/ exists doc,
       let page := <[output args ++ ["index.html"] := File doc]> (fs st) in
       (fs st' = page /\ r = Ok tt /\ output args = CODE_DIR w)
       \/ (fs st' = page /\ (exists e, r = Raise e) /\ output args <> CODE_DIR w)
       \/ (exists css dst,
             r = Ok tt /\ output args <> CODE_DIR w /\
             page !! (CODE_DIR w ++ ["style.css"]) = Some (File css) /\
             dst = match page !! (output args ++ ["style.css"]) with
                   | Some Dir => output args ++ ["style.css"; "style.css"]
                   | _ => output args ++ ["style.css"]
                   end /\
             fs st' = <[dst := File css]> page).
Proof.
  rewrite main_unfold. intros H.
  destruct (is_dir st (output args)); [|solve [left; simplify_eq; eauto]].
  destruct (fs st !! config args) as [[|bytes]|]; try solve [left; simplify_eq; eauto].
  destruct (toml_load w bytes) as [cfg|]; [|solve [left; simplify_eq; eauto]].
  destruct (mapM (render_category w) cfg st) as [[blocks|e] st1] eqn:E;
    pose proof (mapM_keeps_fs (render_category w) _ (render_category_keeps_fs w) _ _ _ E) as Hfs;
    [|solve [left; simplify_eq; eauto]].
  unfold write_text at 1 in H.
  destruct (is_dir st1 (removelast (output args ++ ["index.html"]))
            && negb (is_dir st1 (output args ++ ["index.html"])));
    [|solve [left; simplify_eq; eauto]].
  right. exists (HTML_FMT (Py.join Py.newline blocks)). cbv zeta.
  set (st2 := store _ _ st1) in H.
  assert (Hst2 : fs st2 = <[output args ++ ["index.html"] :=
                             File (HTML_FMT (Py.join Py.newline blocks))]> (fs st)).
  { unfold st2, store. simpl. rewrite Hfs. reflexivity. }
  rewrite <- Hst2.
  destruct (bool_decide_reflect (output args = CODE_DIR w)) as [Heq|Hne].
  { left. simplify_eq. auto. }
  right. unfold shutil_copy, write_text, store, is_dir in H.
  rewrite (last_last _ _ _) in H.
  destruct (fs st2 !! (CODE_DIR w ++ ["style.css"])) as [[|css]|] eqn:Hsrc;
    try solve [left; simplify_eq; eauto].
  destruct (fs st2 !! (output args ++ ["style.css"])) as [[|c]|] eqn:Hdst.
  - rewrite <- app_assoc in H. simpl in H.
    repeat case_match; simplify_eq; eauto 10.
  - repeat case_match; simplify_eq; eauto 10.
  - repeat case_match; simplify_eq; eauto 10.
Qed.

End Files.

(** X9: a run changes no path but the page in the output directory and,
    when that directory is not the directory of the code, the two places
    the stylesheet can be copied to. *)
Theorem main_touches_only_its_outputs (w : World) (args : Args) (st st' : State)
    (r : result unit) (p : list string) :
  main w args st = (r, st') ->
  p <> output args ++ ["index.html"] ->
  (output args <> CODE_DIR w ->
   p <> output args ++ ["style.css"] /\
   p <> output args ++ ["style.css"; "style.css"]) ->
  fs st' !! p = fs st !! p.
Proof.
  intros H H1 H2.
  destruct (main_outcome w args st r st' H)
    as [[-> _]|(doc & [(-> & _)|[(-> & _)|(css & dst & _ & Hne & _ & Hd & ->)]])];
    [reflexivity| | |]; cbv zeta.
  - apply lookup_insert_ne. congruence.
  - apply lookup_insert_ne. congruence.
  - destruct (H2 Hne) as [H3 H4].
    rewrite lookup_insert_ne; [apply lookup_insert_ne; congruence|].
    rewrite Hd. repeat case_match; congruence.
Qed.

Lemma main_touches_only_its_outputs_witness :
  fs (snd (main Demo.world (Demo.args "feeds.toml") Demo.start))
    !! (Demo.code_dir ++ ["style.css"])
  = fs Demo.start !! (Demo.code_dir ++ ["style.css"]).
Proof.
  apply (main_touches_only_its_outputs Demo.world (Demo.args "feeds.toml")
           Demo.start _ (fst (main Demo.world (Demo.args "feeds.toml") Demo.start))).
  - apply surjective_pairing.
  - discriminate.
  - intros _. split; discriminate.
Defined.



(** X11: after a run that succeeds the page is a file in the output
    directory; and when that directory is not the directory of the code
    and holds no directory named [style.css], the stylesheet there is the
    one beside the code, which was a file. *)
Theorem main_success_outputs (w : World) (args : Args) (st st' : State) :
  main w args st = (Ok tt, st') ->
  (exists doc, fs st' !! (output args ++ ["index.html"]) = Some (File doc))
  /\ (output args <> CODE_DIR w ->
      is_dir st (output args ++ ["style.css"]) = false ->
      exists css,
        fs st !! (CODE_DIR w ++ ["style.css"]) = Some (File css) /\
        fs st' !! (output args ++ ["style.css"]) = Some (File css)).
Proof.
  intros H.
  assert (Hne1 : forall l : list string, l ++ ["style.css"] <> output args ++ ["index.html"]).
  { intros l E. apply (f_equal (fun x => List.last x EmptyString)) in E.
    rewrite !last_last in E. discriminate E. }
  assert (Hne2 : output args ++ ["style.css"; "style.css"] <> output args ++ ["index.html"]).
  { apply index_is_not_the_stylesheet. }
  destruct (main_outcome w args st _ st' H)
    as [[_ [e He]]|(doc & [(-> & _ & Heq)|[(_ & [e He] & _)|(css & dst & _ & Hne & Hsrc & Hd & ->)]])];
    try discriminate; cbv zeta in *.
  - split; [exists doc; apply lookup_insert_eq|]. intros Hne. contradiction.
  - split.
    + exists doc. rewrite lookup_insert_ne; [apply lookup_insert_eq|].
      rewrite Hd. repeat case_match; (exact Hne2 || apply Hne1).
    + intros _ Hnd. exists css.
      rewrite lookup_insert_ne in Hsrc by (intros E; exact (Hne1 _ (eq_sym E))).
      split; [exact Hsrc|].
      rewrite lookup_insert_ne in Hd by (intros E; exact (Hne1 _ (eq_sym E))).
      unfold is_dir in Hnd.
      destruct (fs st !! (output args ++ ["style.css"])) as [[|c]|];
        [discriminate Hnd| |]; rewrite Hd; apply lookup_insert_eq.
Qed.

Lemma main_success_outputs_witness :
  exists doc,
    fs (snd (main Demo.world (Demo.args "feeds.toml") Demo.start))
      !! (output (Demo.args "feeds.toml") ++ ["index.html"]) = Some (File doc).
Proof.
  refine (proj1 (main_success_outputs Demo.world (Demo.args "feeds.toml") Demo.start
                   (snd (main Demo.world (Demo.args "feeds.toml") Demo.start)) _)).
  vm_compute. reflexivity.
Defined.

(** ** What a run prints *)

Section Progress.
Variable w : World.

Lemma mapM_M_lines {A B} (f : A -> M B) (P : A -> list string -> Prop) l :
  Forall (fun x => forall st, exists y st' ls,
            f x st = (Ok y, st') /\ stdout st' = stdout st ++ ls /\ P x ls) l ->
  forall st, exists ys st' lss,
    mapM f l st = (Ok ys, st') /\
    stdout st' = stdout st ++ concat lss /\ Forall2 P l lss.
Proof.
  induction 1 as [|x l Hx _ IH]; intros st.
  - exists [], st, []. simpl. rewrite app_nil_r.
    split; [reflexivity|]. split; [reflexivity|constructor].
  - destruct (Hx st) as (y & st1 & ls & E1 & H1 & HP).
    destruct (IH st1) as (ys & st2 & lss & E2 & H2 & HF).
    exists (y :: ys), st2, (ls :: lss). rewrite mapM_M_cons, E1, E2.
    split; [reflexivity|]. split; [|constructor; assumption].
    rewrite H2, H1. simpl. rewrite app_assoc. reflexivity.
Qed.

Lemma concat_singletons {A} (Q : A -> string -> Prop) l lss :
  Forall2 (fun x ls => exists line, ls = [line] /\ Q x line) l lss ->
  Forall2 Q l (concat lss).
Proof.
  induction 1 as [|x ls l lss (line & -> & HQ) _ IH]; [constructor|].
  simpl. constructor; assumption.
Qed.

Lemma Forall2_concat {A C} (Q : C -> string -> Prop) (g : A -> list C) l lss :
  Forall2 (fun x ls => Forall2 Q (g x) ls) l lss ->
  Forall2 Q (concat (map g l)) (concat lss).
Proof.
  induction 1 as [|x ls l lss Hx _ IH]; [constructor|].
  simpl. apply Forall2_app; assumption.
Qed.

Lemma render_feed_prints url :
  Spec.feed_ok w url = true ->
  forall st, exists block st' ls,
    render_feed w url st = (Ok block, st') /\
    stdout st' = stdout st ++ ls /\
    exists line, ls = [line] /\ progress_line w url line.
Proof.
  unfold Spec.feed_ok. intros H st.
  destruct (http_get w url) as [resp|] eqn:Hget; [|discriminate].
  apply andb_true_iff in H as [Hok H].
  destruct (xml_fromstring w (body resp)) as [data|] eqn:Hxml; [|discriminate].
  destruct (children data) as [|channel rest] eqn:Hch; [discriminate|].
  assert (Hnew : plain_feed Feed.new []).
  { split; [reflexivity|]. split; [reflexivity|constructor]. }
  destruct (valid_channel_walk w _ H Feed.new [] Hnew) as (feed & arts & E & Hpf & _).
  destruct (plain_feed_formats w feed arts Hpf) as (frags & Hfmt & _).
  rewrite render_feed_unfold, Feed_parse_unfold, Hget, Hok, Hxml, Hch, E, Hfmt.
  eexists _, _, _. split; [reflexivity|]. split; [reflexivity|].
  eexists. split; [reflexivity|].
  exists resp, data, channel, rest, feed. auto.
Qed.

Lemma render_category_prints entry :
  Forall (fun url => Spec.feed_ok w url = true) (snd entry) ->
  forall st, exists block st' ls,
    render_category w entry st = (Ok block, st') /\
    stdout st' = stdout st ++ ls /\
    Forall2 (progress_line w) (snd entry) ls.
Proof.
  intros Hok st.
  destruct (mapM_M_lines (render_feed w)
              (fun url ls => exists line, ls = [line] /\ progress_line w url line)
              (snd entry)) with (st := st) as (feeds & st' & lss & E & Hout & HF).
  { eapply Forall_impl; [exact Hok|]. intros url Hu. exact (render_feed_prints url Hu). }
  rewrite render_category_unfold, E. eexists _, _, _.
  split; [reflexivity|]. split; [exact Hout|].
  exact (concat_singletons _ _ _ HF).
Qed.

Lemma copy_keeps_stdout src dst st r st' :
  shutil_copy src dst st = (r, st') -> stdout st' = stdout st.
Proof.
  unfold shutil_copy, write_text, store. intros H.
  repeat case_match; simplify_eq; reflexivity.
Qed.

End Progress.

(** X12: when the output directory is there, the configuration loads and
    every configured URL answers with a valid feed, the run prints one
    progress line for each URL of the configuration, a URL listed twice
    counting twice, in the order of the configuration, and nothing else. *)
Theorem main_prints_in_order (w : World) (args : Args) (st : State) (cfg : Config) :
  is_dir st (output args) = true ->
  Spec.loads w args st cfg ->
  Forall (fun entry => Forall (fun url => Spec.feed_ok w url = true) (snd entry)) cfg ->
  exists r st' lines,
    main w args st = (r, st') /\
    stdout st' = stdout st ++ lines /\
    Forall2 (progress_line w) (concat (map snd cfg)) lines.
Proof.
  intros Hdir (bytes & Hf & Ht) Hok.
  destruct (mapM_M_lines (render_category w)
              (fun entry ls => Forall2 (progress_line w) (snd entry) ls) cfg)
    with (st := st) as (blocks & st1 & lss & E & Hout & HF).
  { eapply Forall_impl; [exact Hok|]. intros entry He.
    exact (render_category_prints w entry He). }
  pose proof (Forall2_concat (progress_line w) snd cfg lss HF) as Hlines.
  rewrite main_unfold, Hdir, Hf, Ht, E.
  unfold write_text.
  destruct (is_dir st1 (removelast (output args ++ ["index.html"]))
            && negb (is_dir st1 (output args ++ ["index.html"]))).
  - set (st2 := store _ _ st1).
    assert (Hst2 : stdout st2 = stdout st ++ concat lss) by exact Hout.
    destruct (bool_decide (output args = CODE_DIR w)).
    + exists (Ok tt), st2, (concat lss). auto.
    + destruct (shutil_copy (CODE_DIR w ++ ["style.css"]) (output args ++ ["style.css"]) st2)
        as [r st3] eqn:Ec.
      exists r, st3, (concat lss). split; [reflexivity|]. split; [|exact Hlines].
      rewrite (copy_keeps_stdout _ _ _ _ _ Ec). exact Hst2.
  - exists (Raise OSError), st1, (concat lss). auto.
Qed.

Lemma main_prints_in_order_witness :
  exists r st' lines,
    main Demo.world (Demo.args "feeds.toml") Demo.start = (r, st') /\
    stdout st' = stdout Demo.start ++ lines /\
    Forall2 (progress_line Demo.world)
      (concat (map snd [("Tech", ["http://x/feed"])])) lines.
Proof.
  refine (main_prints_in_order Demo.world (Demo.args "feeds.toml") Demo.start
            [("Tech", ["http://x/feed"])] eq_refl _ _).
  - exists (Demo.toml "Tech" "http://x/feed"). split; reflexivity.
  - repeat constructor.
Defined.

(** ** The page of a run that returns *)

(** X14: when the configuration loads, every configured URL answers with a
    valid feed and the run returns, the page in the output directory holds
    the blocks of the categories in the order of the configuration; each
    holds its name and then the blocks of its URLs in their order; each of
    those holds the fragments of the articles parsed from the items of its
    document, in the order of the items. *)
Theorem page_blocks_in_order (w : World) (args : Args) (st st' : State)
    (cfg : Config) :
  Spec.loads w args st cfg ->
  Forall (fun entry => Forall (fun url => Spec.feed_ok w url = true) (snd entry)) cfg ->
  main w args st = (Ok tt, st') ->
  exists blocks page,
    fs st' !! (output args ++ ["index.html"]) = Some (File page) /\
    page = HTML_FMT (Py.join Py.newline blocks) /\
    in_order blocks page /\
    Forall2 (ordered_category w) cfg blocks.
Proof.
  intros (bytes & Hf & Ht) Hok Hrun.
  destruct (mapM_M_Forall2 (render_category w) (Spec.category_block w) cfg) with (st := st)
    as (blocks & st1 & E & HF).
  { eapply Forall_impl; [exact Hok|]. intros entry He. exact (render_category_ok w entry He). }
  exists blocks, (HTML_FMT (Py.join Py.newline blocks)).
  split; [|split; [reflexivity|split]].
  - rewrite main_unfold, Hf, Ht, E in Hrun.
    destruct (is_dir st (output args)); [|discriminate].
    unfold write_text in Hrun.
    destruct (is_dir st1 (removelast (output args ++ ["index.html"]))
              && negb (is_dir st1 (output args ++ ["index.html"]))); [|discriminate].
    set (st2 := store _ _ st1) in Hrun.
    assert (Hst2 : fs st2 !! (output args ++ ["index.html"])
                   = Some (File (HTML_FMT (Py.join Py.newline blocks)))).
    { unfold st2, store. simpl. apply lookup_insert_eq. }
    destruct (bool_decide (output args = CODE_DIR w)).
    + injection Hrun as <-. exact Hst2.
    + rewrite (copy_keeps_index _ _ _ _ _ Hrun (last_last _ _ _)). exact Hst2.
  - apply in_order_HTML_FMT, in_order_join.
  - eapply Forall2_impl; [exact HF|]. exact (category_block_is_ordered w).
Qed.

Lemma page_blocks_in_order_witness :
  exists blocks page,
    fs (snd (main Demo.world (Demo.args "feeds.toml") Demo.start))
      !! (output (Demo.args "feeds.toml") ++ ["index.html"]) = Some (File page) /\
    page = HTML_FMT (Py.join Py.newline blocks) /\
    in_order blocks page /\
    Forall2 (ordered_category Demo.world) [("Tech", ["http://x/feed"])] blocks.
Proof.
  refine (page_blocks_in_order Demo.world (Demo.args "feeds.toml") Demo.start
            (snd (main Demo.world (Demo.args "feeds.toml") Demo.start))
            [("Tech", ["http://x/feed"])] _ _ _).
  - exists (Demo.toml "Tech" "http://x/feed"). split; reflexivity.
  - repeat constructor.
  - vm_compute. reflexivity.
Defined.

(** ** Dates without a weekday *)

Section NoWeekday.
Import Py.

Lemma push_head c ls : exists h more, push c ls = String c h :: more.
Proof. destruct ls as [|l ls]; simpl; eauto. Qed.

Lemma join_head sep c h more :
  exists z, join sep (String c h :: more) = String c z.
Proof. destruct more; simpl; eauto. Qed.

Lemma strptime_needs_a_digit c z :
  CLocale.digit c = None -> c <> " "%char ->
  CLocale.strptime (String c z) = None.
Proof.
  intros Hd Hc. unfold CLocale.strptime, CLocale.day_matches. rewrite Hd.
  destruct (Ascii.eqb_spec c " "%char) as [?|_]; [contradiction|].
  destruct z as [|c2 z]; [reflexivity|].
  destruct (CLocale.digit c2); reflexivity.
Qed.

End NoWeekday.

(** X13: in the C locale a date text whose second token does not start
    with a digit is never read; so a date that leaves the weekday out, the
    month then being the second token, raises. *)
Theorem parse_dt_needs_day_second (t0 tail : string) (c : ascii) :
  Py.contains " " t0 = false ->
  CLocale.digit c = None -> c <> " "%char ->
  Article.parse_dt CLocale.locale (t0 +:+ String " " (String c tail))
  = Raise ValueError.
Proof.
  intros H0 Hd Hc. unfold Article.parse_dt, Article.date_tokens.
  rewrite (split_token_sep _ _ _ H0). cbn [Py.split].
  destruct (Ascii.eqb_spec c " "%char) as [?|_]; [contradiction|].
  destruct (push_head c (Py.split " " tail)) as (h & more & ->).
  unfold Py.slice. cbn [drop take Nat.sub].
  destruct (join_head " " c h (take 2 more)) as [z ->].
  cbn [strptime_dbY CLocale.locale].
  rewrite (strptime_needs_a_digit c z Hd Hc). reflexivity.
Qed.

Lemma parse_dt_needs_day_second_witness :
  Article.parse_dt CLocale.locale ("04" +:+ String " " (String "O" "ct 2023 10:00:00 GMT"))
  = Raise ValueError.
Proof.
  refine (parse_dt_needs_day_second "04" "ct 2023 10:00:00 GMT" "O" eq_refl eq_refl _).
  discriminate.
Defined.
